(** * Resume screening front end: model and verified properties

    A shallow embedding of the TypeScript front end of the resume
    screener: the type contracts of [types/api.ts], the shared
    [ResumeContext], the upload filter of [UploadPage], the request built by
    [resumeAPI.processResumes], the processing effect of [ProcessingPage]
    (backend call with its demo fallback [simulateMockProcessing]) and the
    statistics shown by [ResultsPage].

    Conventions.
    - JavaScript strings are [string]s of 8-bit characters; [toLowerCase]
      acts on the letters A-Z.
    - Scores are integers ([Z]).  A JavaScript number that is the result of
      a division is a [JSNumber]: an exact rational or [NaN]/infinity.
    - [Math.random] is a stream of draws handed to the code, threaded through
      the calls in evaluation order by a small state monad.
    - [Date.now], the cookies of the browser and the outcome of each HTTP
      call are inputs. *)

From Stdlib Require Import List String Ascii Bool Arith ZArith QArith Qround Qabs Lia.
From Stdlib Require Import DecimalString DecimalNat.
Import ListNotations.

Local Open Scope string_scope.
Local Open Scope list_scope.

(* ================================================================= *)
(** ** JavaScript string and array primitives used by the code *)

Module JS.

(** [`${n}`] for an integer [n]. *)
Definition ofZ (z : Z) : string := NilEmpty.string_of_int (Z.to_int z).

(** [`${i}`] for an array index [i]. *)
Definition ofNat (n : nat) : string := NilEmpty.string_of_uint (Nat.to_uint n).

Definition lowerChar (c : ascii) : ascii :=
  let n := nat_of_ascii c in
  if (65 <=? n)%nat && (n <=? 90)%nat then ascii_of_nat (n + 32) else c.

(** [s.toLowerCase()] *)
Fixpoint toLowerCase (s : string) : string :=
  match s with
  | EmptyString => EmptyString
  | String c s' => String (lowerChar c) (toLowerCase s')
  end.

(** [s.endsWith(suffix)] *)
Fixpoint endsWith (s suffix : string) : bool :=
  String.eqb s suffix
  || match s with
     | EmptyString => false
     | String _ s' => endsWith s' suffix
     end.

(** [s.split(sep)] for a one-character separator: the pieces between the
    occurrences of [sep], empty pieces included; never the empty array. *)
Fixpoint split (sep : ascii) (s : string) : list string :=
  match s with
  | EmptyString => [EmptyString]
  | String c s' =>
      if Ascii.eqb c sep then EmptyString :: split sep s'
      else match split sep s' with
           | [] => [String c EmptyString]
           | w :: ws => String c w :: ws
           end
  end.

(** [a.join(sep)] for an array of strings. *)
Fixpoint join (sep : string) (l : list string) : string :=
  match l with
  | [] => EmptyString
  | [w] => w
  | w :: ws => (w ++ sep ++ join sep ws)%string
  end.

(** [a.slice(0, e)]: a negative [e] counts from the end, and the bound is
    clamped to the array. *)
Definition slice0 {A} (e : Z) (l : list A) : list A :=
  let len := Z.of_nat (List.length l) in
  let k := if (e <? 0)%Z then Z.max (len + e) 0 else Z.min e len in
  firstn (Z.to_nat k) l.

(** [Math.floor(x)] on a finite number. *)
Definition floor (x : Q) : Z := Qfloor x.

End JS.

(* ================================================================= *)
(** ** Type contracts ([types/api.ts]) *)

(** [status: 'shortlisted' | 'rejected'] *)
Inductive Status := shortlisted | rejected.

Definition Status_eqb (a b : Status) : bool :=
  match a, b with
  | shortlisted, shortlisted | rejected, rejected => true
  | _, _ => false
  end.

(** A browser [File]: the declared name and MIME type, the size, and the
    bytes. *)
Module File.
Record t := mk {
  name : string;
  type : string;
  size : Z;
  content : list ascii
}.
End File.

Module CandidateResult.
Record t := mk {
  id : string;
  fileName : string;
  candidate : string;
  email : string;
  phone : option string;
  score : Z;
  status : Status;
  summary : string;
  experience : string;
  skills : list string;
  education : option string;
  location : option string;
  extractedText : option string
}.
End CandidateResult.

Module RejectionEmail.
Record t := mk {
  candidateId : string;
  candidate : string;
  email : string;
  subject : string;
  content : string
}.
End RejectionEmail.

Module ProcessResumeRequest.
Record t := mk {
  jobDescription : string;
  files : list File.t
}.
End ProcessResumeRequest.

Module ProcessResumeResponse.
Record t := mk {
  jobId : string;
  candidates : list CandidateResult.t;
  rejectionEmails : list RejectionEmail.t;
  totalProcessed : Z;
  shortlistedCount : Z;
  rejectedCount : Z;
  averageScore : Q;
  processingTime : Z
}.
End ProcessResumeResponse.

Module ApiError.
Record t := mk {
  message : string;
  code : string
}.
End ApiError.

(* ================================================================= *)
(** ** The random source and its state monad *)

(** The draws of [Math.random], in the order the code asks for them. *)
Definition RandomSource := nat -> Q.

Definition Rand (A : Type) : Type := RandomSource -> A * RandomSource.

Definition ret {A} (a : A) : Rand A := fun g => (a, g).

Definition bind {A B} (m : Rand A) (k : A -> Rand B) : Rand B :=
  fun g => let (a, g') := m g in k a g'.

Notation "x <- m ;; k" := (bind m (fun x => k))
  (at level 61, m at next level, right associativity).

(** [Math.random()] *)
Definition random : Rand Q := fun g => (g 0%nat, fun n => g (S n)).

(** [Math.floor(Math.random() * n)].  The product is taken exactly; the
    code rounds it to a double before the floor, which can differ only for
    a draw within one rounding of a multiple of [1/n]. *)
Definition randomBelow (n : Z) : Rand Z :=
  r <- random ;; ret (JS.floor (r * inject_Z n)).

(** [a.map((x, index) => f x index)], the callbacks run in index order. *)
Fixpoint mapIndexFrom {A B} (f : A -> nat -> Rand B) (i : nat) (l : list A)
  : Rand (list B) :=
  match l with
  | [] => ret []
  | x :: xs =>
      y <- f x i ;;
      ys <- mapIndexFrom f (S i) xs ;;
      ret (y :: ys)
  end.

Definition mapIndex {A B} (f : A -> nat -> Rand B) (l : list A) : Rand (list B) :=
  mapIndexFrom f 0 l.


(* ================================================================= *)
(** ** The shared context ([context/ResumeContext.tsx]) *)

Module ResumeContext.
Record t := mk {
  jobDescription : string;
  uploadedFiles : list File.t;
  processedResumes : list CandidateResult.t;
  rejectionEmails : list RejectionEmail.t;
  processing : bool;
  currentJobId : option string
}.

(** The state a fresh [ResumeProvider] starts from (the [useState]
    initial values). *)
Definition initial : t := mk "" [] [] [] false None.

(** [resetProcess] *)
Definition resetProcess (_ : t) : t := mk "" [] [] [] false None.

(** What a property of the provided [value] object holds: a piece of the
    state or a function. *)
Inductive Property :=
| PString (s : string)
| PFiles (l : list File.t)
| PResumes (l : list CandidateResult.t)
| PEmails (l : list RejectionEmail.t)
| PBool (b : bool)
| PJobId (j : option string)
| PFunction.

(** The object literal [value] handed to [ResumeContext.Provider], property
    by property, in the order it is written. *)
Definition value (st : t) : list (string * Property) :=
  [ ("jobDescription", PString (jobDescription st));
    ("setJobDescription", PFunction);
    ("uploadedFiles", PFiles (uploadedFiles st));
    ("setUploadedFiles", PFunction);
    ("processedResumes", PResumes (processedResumes st));
    ("setProcessedResumes", PFunction);
    ("rejectionEmails", PEmails (rejectionEmails st));
    ("setRejectionEmails", PFunction);
    ("processing", PBool (processing st));
    ("setProcessing", PFunction);
    ("currentJobId", PJobId (currentJobId st));
    ("setCurrentJobId", PFunction);
    ("resetProcess", PFunction) ].

(** Reading a property of an object: [None] is [undefined]. *)
Fixpoint get (key : string) (o : list (string * Property)) : option Property :=
  match o with
  | [] => None
  | (k, v) :: o' => if String.eqb k key then Some v else get key o'
  end.

Definition setJobDescription (d : string) (st : t) : t :=
  mk d (uploadedFiles st) (processedResumes st) (rejectionEmails st)
     (processing st) (currentJobId st).

Definition setUploadedFiles (fs : list File.t) (st : t) : t :=
  mk (jobDescription st) fs (processedResumes st) (rejectionEmails st)
     (processing st) (currentJobId st).

Definition setProcessedResumes (rs : list CandidateResult.t) (st : t) : t :=
  mk (jobDescription st) (uploadedFiles st) rs (rejectionEmails st)
     (processing st) (currentJobId st).

Definition setRejectionEmails (es : list RejectionEmail.t) (st : t) : t :=
  mk (jobDescription st) (uploadedFiles st) (processedResumes st) es
     (processing st) (currentJobId st).

Definition setProcessing (b : bool) (st : t) : t :=
  mk (jobDescription st) (uploadedFiles st) (processedResumes st)
     (rejectionEmails st) b (currentJobId st).

Definition setCurrentJobId (j : option string) (st : t) : t :=
  mk (jobDescription st) (uploadedFiles st) (processedResumes st)
     (rejectionEmails st) (processing st) j.
End ResumeContext.

(* ================================================================= *)
(** ** Upload page ([components/UploadPage.tsx]) *)

(** The predicate of the [filter] in [handleFileUpload]. *)
Definition acceptsFile (file : File.t) : bool :=
  String.eqb (File.type file) "application/pdf"
  || JS.endsWith (JS.toLowerCase (File.name file)) ".doc"
  || JS.endsWith (JS.toLowerCase (File.name file)) ".docx".

(** [handleFileUpload(files)]: [None] is the [null] file list. *)
Definition handleFileUpload (files : option (list File.t)) (st : ResumeContext.t)
  : ResumeContext.t :=
  match files with
  | Some fl =>
      let newFiles := filter acceptsFile fl in
      ResumeContext.setUploadedFiles (ResumeContext.uploadedFiles st ++ newFiles) st
  | None => st
  end.

(* ================================================================= *)
(** ** The request of [resumeAPI.processResumes] ([services/api.ts]) *)

(** A [FormData] entry value: a string or a file. *)
Inductive FormValue :=
| FormText (s : string)
| FormFile (f : File.t).

Module Request.
Record t := mk {
  method : string;
  url : string;
  headers : list (string * string);
  body : list (string * FormValue)
}.
End Request.

(** The [FormData] built by [processResumes]: [jobDescription] first, then
    one [resumes] entry per file, in order. *)
Definition processResumes_formData (data : ProcessResumeRequest.t)
  : list (string * FormValue) :=
  ("jobDescription", FormText (ProcessResumeRequest.jobDescription data))
  :: map (fun file => ("resumes", FormFile file)) (ProcessResumeRequest.files data).

(** The request interceptor: a stored [auth_token] cookie, when there is a
    non-empty one, becomes the [Authorization] header. *)
Definition authInterceptor (token : option string) (r : Request.t) : Request.t :=
  match token with
  | Some tk =>
      if String.eqb tk "" then r
      else Request.mk (Request.method r) (Request.url r)
             (Request.headers r ++ [("Authorization", ("Bearer " ++ tk)%string)])
             (Request.body r)
  | None => r
  end.

(** The [Accept] header every request of an axios instance carries by
    default. *)
Definition acceptHeader : string * string :=
  ("Accept", "application/json, text/plain, */*").

(** The request of [processResumes] as [api.post] builds it, before the
    interceptor: the default [Accept] header, and the [Content-Type] given
    with the call in place of the default of the instance. *)
Definition processResumes_config (data : ProcessResumeRequest.t) : Request.t :=
  Request.mk "POST" "/resumes/process"
    [acceptHeader; ("Content-Type", "multipart/form-data")]
    (processResumes_formData data).

(** The request [processResumes] hands to the backend. *)
Definition processResumes_request (token : option string)
    (data : ProcessResumeRequest.t) : Request.t :=
  authInterceptor token (processResumes_config data).

(** What a rejected call throws: the body of an error response when the
    backend answered, and the error's [message]. *)
Module AxiosError.
Record t := mk {
  responseData : option ApiError.t;
  message : string
}.
End AxiosError.

(** The cookie store as [js-cookie] sees it: the value of each cookie and
    the number of days given as [expires].  The passing of time is not
    modelled, so no cookie expires. *)
Module Cookies.
Definition jar := list (string * (string * Z)).

(** [Cookies.get(name)]: [None] is [undefined]. *)
Fixpoint get (name : string) (j : jar) : option string :=
  match j with
  | [] => None
  | (k, (v, _)) :: j' => if String.eqb k name then Some v else get name j'
  end.

(** [Cookies.remove(name)] *)
Fixpoint remove (name : string) (j : jar) : jar :=
  match j with
  | [] => []
  | (k, c) :: j' =>
      if String.eqb k name then remove name j' else (k, c) :: remove name j'
  end.

(** [Cookies.set(name, value, { expires })]: the cookie of that name is
    replaced. *)
Definition set (name value : string) (expires : Z) (j : jar) : jar :=
  (name, (value, expires)) :: remove name j.
End Cookies.

(** The part of the browser the API layer acts on: the cookies and the
    address assigned to [window.location.href], if any. *)
Module Browser.
Record t := mk {
  cookies : Cookies.jar;
  href : option string
}.
End Browser.

(** The truth of a string or [undefined]: a non-empty string. *)
Definition truthy (s : option string) : bool :=
  match s with
  | Some v => negb (String.eqb v "")
  | None => false
  end.

(** [isAuthenticated] *)
Definition isAuthenticated (b : Browser.t) : bool :=
  truthy (Cookies.get "auth_token" (Browser.cookies b)).

(** [getAuthToken] *)
Definition getAuthToken (b : Browser.t) : option string :=
  Cookies.get "auth_token" (Browser.cookies b).

(** How a call ends: resolved with the data of a 2xx answer, or rejected,
    with the status of the answer when there was one. *)
Inductive Reply (A : Type) :=
| Resolved (data : A)
| Rejected (status : option Z) (error : AxiosError.t).
Arguments Resolved {A} data.
Arguments Rejected {A} status error.

(** A call through the [api] instance: the request interceptor adds the
    token, and the response interceptor, on an answer with status 401,
    removes both cookies and sends the browser to the sign-in page before
    the error is thrown on. *)
Definition apiCall {A} (server : Request.t -> Reply A) (r : Request.t)
    (b : Browser.t) : (AxiosError.t + A) * Browser.t :=
  match server (authInterceptor (Cookies.get "auth_token" (Browser.cookies b)) r) with
  | Resolved data => (inr data, b)
  | Rejected status error =>
      (inl error,
       match status with
       | Some 401%Z =>
           Browser.mk
             (Cookies.remove "refresh_token"
                (Cookies.remove "auth_token" (Browser.cookies b)))
             (Some "/signin")
       | _ => b
       end)
  end.

(** The backend is outside the front end: it is any function from the
    request to the way the call ends. *)
Definition Backend := Request.t -> Reply ProcessResumeResponse.t.

(** [resumeAPI.processResumes(data)]: a call through the [api] instance,
    so the token of the cookie is added to the request and an answer with
    status 401 clears the cookies and reassigns the address.  The request
    the backend sees is [processResumes_request] at the token of the
    cookie. *)
Definition processResumes (backend : Backend) (data : ProcessResumeRequest.t)
    (b : Browser.t) : (AxiosError.t + ProcessResumeResponse.t) * Browser.t :=
  apiCall backend (processResumes_config data) b.

(** [handleApiError] *)
Definition handleApiError (error : AxiosError.t) : ApiError.t :=
  match AxiosError.responseData error with
  | Some d => d
  | None =>
      ApiError.mk
        (if String.eqb (AxiosError.message error) ""
         then "An unexpected error occurred" else AxiosError.message error)
        "UNKNOWN_ERROR"
  end.

(* ================================================================= *)
(** ** Processing page ([components/ProcessingPage.tsx]) *)

Definition candidates : list string :=
  [ "Sarah Johnson"; "Michael Chen"; "Emily Rodriguez"; "David Kumar";
    "Jessica Williams"; "Alex Thompson"; "Maria Garcia"; "James Wilson";
    "Lauren Davis"; "Robert Martinez" ].

Definition emails : list string :=
  [ "sarah.j@email.com"; "michael.c@email.com"; "emily.r@email.com";
    "david.k@email.com"; "jessica.w@email.com"; "alex.t@email.com";
    "maria.g@email.com"; "james.w@email.com"; "lauren.d@email.com";
    "robert.m@email.com" ].

Definition allSkills : list string :=
  [ "JavaScript"; "React"; "Node.js"; "Python"; "SQL"; "TypeScript"; "AWS";
    "Docker" ].

(** The callback of [uploadedFiles.map] in [simulateMockProcessing]: the
    mock record of the file at position [index].  The draws are taken in
    the order the expressions are evaluated: the score, then (for a score
    of at least 80 only) the years in the summary, then the experience,
    then the number of skills. *)
Definition mockResume (file : File.t) (index : nat) : Rand CandidateResult.t :=
  s <- randomBelow 40 ;;
  let score := (s + 60)%Z in
  let candidate := nth (index mod List.length candidates) candidates "" in
  let email := nth (index mod List.length emails) emails "" in
  summary <-
    (if (score >=? 80)%Z
     then y <- randomBelow 3 ;;
          ret ("Excellent match with " ++ JS.ofZ (y + 5)
               ++ "+ years of relevant experience. Strong technical skills and cultural fit.")%string
     else ret "Good candidate but missing key requirements. Limited experience in core technologies mentioned in job description.") ;;
  e <- randomBelow 8 ;;
  k <- randomBelow 4 ;;
  ret (CandidateResult.mk
         ("resume_" ++ JS.ofNat index)%string
         (File.name file)
         candidate
         email
         None
         score
         (if (score >=? 80)%Z then shortlisted else rejected)
         summary
         (JS.ofZ (e + 2) ++ " years")%string
         (JS.slice0 (k + 3) allSkills)
         None None None).

Definition mockResumes (uploadedFiles : list File.t) : Rand (list CandidateResult.t) :=
  mapIndex mockResume uploadedFiles.

(** [jobDescription.split(' ').slice(0, 3).join(' ')] *)
Definition positionLabel (jobDescription : string) : string :=
  JS.join " " (firstn 3 (JS.split " "%char jobDescription)).

Definition subjectPrefix : string := "Thank you for your application - ".

(** The callback of [rejectedCandidates.map]: the draft for one rejected
    record. *)
Definition mockRejectionEmail (jobDescription : string) (resume : CandidateResult.t)
  : RejectionEmail.t :=
  RejectionEmail.mk
    (CandidateResult.id resume)
    (CandidateResult.candidate resume)
    (CandidateResult.email resume)
    (subjectPrefix ++ positionLabel jobDescription ++ " Position")%string
    ("Dear " ++ CandidateResult.candidate resume ++ ",

Thank you for taking the time to apply for the " ++ positionLabel jobDescription ++ " position at our company. We appreciate your interest in joining our team.

After careful review of your application and qualifications, we have decided to move forward with other candidates whose experience more closely aligns with our current requirements.

We were impressed by your background and encourage you to apply for future opportunities that may be a better fit for your skills and experience.

Thank you again for your interest in our company.

Best regards,
HR Team")%string.

Definition isRejected (resume : CandidateResult.t) : bool :=
  Status_eqb (CandidateResult.status resume) rejected.

Definition isShortlisted (resume : CandidateResult.t) : bool :=
  Status_eqb (CandidateResult.status resume) shortlisted.

Definition mockRejectionEmails (jobDescription : string)
    (resumes : list CandidateResult.t) : list RejectionEmail.t :=
  let rejectedCandidates := filter isRejected resumes in
  map (mockRejectionEmail jobDescription) rejectedCandidates.

(** What the page has done when its effect ends: the context, the route it
    navigated to, and the console lines. *)
Module Page.
Record t := mk {
  context : ResumeContext.t;
  route : option string;
  console : list string
}.
End Page.

(** [simulateMockProcessing]; [now] is [Date.now()]. *)
Definition simulateMockProcessing (now : Z) (p : Page.t) : Rand Page.t :=
  let st := Page.context p in
  resumes <- mockResumes (ResumeContext.uploadedFiles st) ;;
  let mails := mockRejectionEmails (ResumeContext.jobDescription st) resumes in
  let st1 := ResumeContext.setCurrentJobId (Some ("mock_job_" ++ JS.ofZ now)%string) st in
  let st2 := ResumeContext.setProcessedResumes resumes st1 in
  let st3 := ResumeContext.setRejectionEmails mails st2 in
  ret (Page.mk st3 (Some "/results") (Page.console p)).

(** [processResumesWithAPI]: the backend call and, when it throws, the
    fallback to the mock data; [setProcessing(false)] on every path.  The
    console lines are those of [console.error] and [console.log] in the
    [catch] block; [apiError] is computed and not used, as in the source.

    The result is the page together with the browser state the call left.
    The effect is followed as it is written: after an answer with status
    401 the interceptor has reassigned [window.location.href], and the
    [catch] block then runs like after any other rejection.  The loading of
    the new address, which replaces the document, is an event of the
    browser and not a step of this function. *)
Definition processResumesWithAPI (backend : Backend) (now : Z)
    (st : ResumeContext.t) (b : Browser.t) : Rand (Page.t * Browser.t) :=
  let st0 := ResumeContext.setProcessing true st in
  let (result, b') :=
    processResumes backend
      (ProcessResumeRequest.mk (ResumeContext.jobDescription st0)
                               (ResumeContext.uploadedFiles st0)) b in
  p <-
    match result with
    | inr response =>
        let st1 := ResumeContext.setCurrentJobId
                     (Some (ProcessResumeResponse.jobId response)) st0 in
        let st2 := ResumeContext.setProcessedResumes
                     (ProcessResumeResponse.candidates response) st1 in
        let st3 := ResumeContext.setRejectionEmails
                     (ProcessResumeResponse.rejectionEmails response) st2 in
        ret (Page.mk st3 (Some "/results") [])
    | inl error =>
        let apiError := handleApiError error in
        simulateMockProcessing now
          (Page.mk st0 None
             [ "Failed to process resumes:";
               "Falling back to mock data for demo..." ])
    end ;;
  ret (Page.mk (ResumeContext.setProcessing false (Page.context p))
               (Page.route p) (Page.console p),
       b').

(* ================================================================= *)
(** ** Results page ([components/ResultsPage.tsx]) *)

(** The result of a JavaScript division or of [Math.round]: a finite
    number, or one of the three non-finite values. *)
Inductive JSNumber :=
| Finite (q : Q)
| NaN
| PosInfinity
| NegInfinity.

(** [a / b] for finite [a] and [b]: a zero divisor gives [NaN] for a zero
    dividend and an infinity otherwise. *)
Definition jsDiv (a b : Q) : JSNumber :=
  if Qeq_bool b 0 then
    if Qeq_bool a 0 then NaN
    else if Qle_bool 0 a then PosInfinity else NegInfinity
  else Finite (a / b).

(** [Math.round(x)]: the nearest integer, halves towards plus infinity;
    [NaN] and the infinities are returned as they are. *)
Definition jsRound (x : JSNumber) : JSNumber :=
  match x with
  | Finite q => Finite (inject_Z (Qfloor (q + (1 # 2))))
  | other => other
  end.

Definition shortlistedCandidates (processedResumes : list CandidateResult.t) :=
  filter isShortlisted processedResumes.

Definition rejectedCandidates (processedResumes : list CandidateResult.t) :=
  filter isRejected processedResumes.

(** [processedResumes.reduce((sum, r) => sum + r.score, 0)] *)
Definition sumScores (processedResumes : list CandidateResult.t) : Z :=
  fold_left (fun sum r => (sum + CandidateResult.score r)%Z) processedResumes 0%Z.

(** The number shown in the Avg Score card. *)
Definition avgScore (processedResumes : list CandidateResult.t) : JSNumber :=
  jsRound (jsDiv (inject_Z (sumScores processedResumes))
                 (inject_Z (Z.of_nat (List.length processedResumes)))).

Definition hasId (i : string) (r : CandidateResult.t) : bool :=
  String.eqb (CandidateResult.id r) i.

Definition draftFor (i : string) (d : RejectionEmail.t) : bool :=
  String.eqb (RejectionEmail.candidateId d) i.

(** The exact arithmetic mean of the scores of a list of records, the
    quantity the displayed average is compared with. *)
Definition exactMean (processedResumes : list CandidateResult.t) : Q :=
  inject_Z (sumScores processedResumes)
  / inject_Z (Z.of_nat (List.length processedResumes)).

(* ================================================================= *)
(** ** Sample inputs *)

Definition pdfBytes : list ascii :=
  [ "%"; "P"; "D"; "F"; "-"; "1"; "."; "7" ]%char.

Definition samplePdf : File.t := File.mk "cv.pdf" "application/pdf" 8 pdfBytes.

Definition sampleDocx : File.t := File.mk "Resume.DOCX" "" 8 pdfBytes.

(** A random source whose draws are all one half: every score is 80. *)
Definition halves : RandomSource := fun _ => 1 # 2.

(** A random source whose draws are all zero: every score is 60. *)
Definition zeros : RandomSource := fun _ => 0.

(** All draws zero but the fourth, which is 1/32.  A rejected record takes
    three draws (score, experience, skills), so the fourth draw is the score
    draw of the second file: the scores of two files are 60 and 61. *)
Definition sixtyThenSixtyOne : RandomSource :=
  fun n => if (n =? 3)%nat then 1 # 32 else 0.

Definition sampleContext : ResumeContext.t :=
  ResumeContext.mk "Senior React Developer with five years of experience"
    [samplePdf; sampleDocx] [] [] false None.

Definition samplePage : Page.t := Page.mk sampleContext None [].

(** PDF bytes under a name without extension and without a declared type. *)
Definition pdfWithoutExtension : File.t := File.mk "cv" "" 8 pdfBytes.

(** Plain text under a name that ends in [.doc]. *)
Definition textNamedDoc : File.t :=
  File.mk "notes.doc" "text/plain" 5 [ "h"; "e"; "l"; "l"; "o" ]%char.

(** A backend whose every call fails with a persistence error, answered
    with status 500. *)
Definition failingBackend : Backend :=
  fun _ => Rejected (Some 500%Z)
             (AxiosError.mk
                (Some (ApiError.mk "Could not save the screening job"
                                   "PERSISTENCE_FAILURE"))
                "Request failed with status code 500").

(** A backend that answers every call with status 401. *)
Definition unauthorizedBackend : Backend :=
  fun _ => Rejected (Some 401%Z)
             (AxiosError.mk (Some (ApiError.mk "Token expired" "UNAUTHORIZED"))
                            "Request failed with status code 401").

(** A backend that answers every call with an empty result. *)
Definition emptyBackend : Backend :=
  fun _ => Resolved (ProcessResumeResponse.mk "job_1" [] [] 0 0 0 0 0).

(** A browser that holds both token cookies. *)
Definition signedInBrowser : Browser.t :=
  Browser.mk [ ("refresh_token", ("jwt-refresh-token", 30%Z));
               ("auth_token", ("jwt-access-token", 7%Z)) ]
             None.

(** [s.includes(c)] for a character [c]. *)
Fixpoint includesChar (c : ascii) (s : string) : bool :=
  match s with
  | EmptyString => false
  | String a s' => Ascii.eqb a c || includesChar c s'
  end.

(** The record of [samplePdf] at position 0 when the score draw is one
    half: its score is exactly 80. *)
Definition boundaryRecord : CandidateResult.t :=
  Eval vm_compute in fst (mockResume samplePdf 0 halves).

(** The record of [samplePdf] at position 0 when every draw is zero: its
    score is 60. *)
Definition rejectedRecord : CandidateResult.t :=
  Eval vm_compute in fst (mockResume samplePdf 0 zeros).

(** Eleven uploads: positions 0 and 10 get the same built-in name and
    address. *)
Definition elevenFilesPage : Page.t :=
  Page.mk (ResumeContext.mk (ResumeContext.jobDescription sampleContext)
             (repeat sampleDocx 11) [] [] false None)
          None [].

(** The draft for the record at position 10 of [elevenFilesPage] when every
    draw is zero. *)
Definition eleventhDraft : RejectionEmail.t :=
  Eval vm_compute in
    mockRejectionEmail (ResumeContext.jobDescription sampleContext)
      (fst (mockResume sampleDocx 10 zeros)).

(** The draft for [rejectedRecord] under the job description of
    [sampleContext]. *)
Definition sampleDraft : RejectionEmail.t :=
  Eval vm_compute in
    mockRejectionEmail (ResumeContext.jobDescription sampleContext) rejectedRecord.

(* ================================================================= *)
(** ** Upload page: removing a file and the process button *)

(** [a.filter((x, i) => keep x i)] *)
Fixpoint filterIndexFrom {A} (keep : A -> nat -> bool) (i : nat) (l : list A)
  : list A :=
  match l with
  | [] => []
  | x :: xs =>
      if keep x i then x :: filterIndexFrom keep (S i) xs
      else filterIndexFrom keep (S i) xs
  end.

(** [removeFile(index)] *)
Definition removeFile (index : nat) (st : ResumeContext.t) : ResumeContext.t :=
  ResumeContext.setUploadedFiles
    (filterIndexFrom (fun _ i => negb (i =? index)%nat) 0
       (ResumeContext.uploadedFiles st))
    st.

(** The characters [trim] strips, among the 8-bit ones: tab, line feed,
    vertical tab, form feed, carriage return, space and no-break space. *)
Definition isWhiteSpace (c : ascii) : bool :=
  let n := nat_of_ascii c in
  ((9 <=? n)%nat && (n <=? 13)%nat) || (n =? 32)%nat || (n =? 160)%nat.

Fixpoint trimStart (s : string) : string :=
  match s with
  | EmptyString => EmptyString
  | String c s' => if isWhiteSpace c then trimStart s' else s
  end.

Fixpoint trimEnd (s : string) : string :=
  match s with
  | EmptyString => EmptyString
  | String c s' =>
      match trimEnd s' with
      | EmptyString => if isWhiteSpace c then EmptyString else String c EmptyString
      | r => String c r
      end
  end.

(** [s.trim()] *)
Definition trim (s : string) : string := trimEnd (trimStart s).

(** The [disabled] attribute of the process button:
    [!jobDescription.trim() || uploadedFiles.length === 0]. *)
Definition processDisabled (st : ResumeContext.t) : bool :=
  String.eqb (trim (ResumeContext.jobDescription st)) ""
  || (List.length (ResumeContext.uploadedFiles st) =? 0)%nat.

(** Every character of [s] is one that [trim] strips. *)
Fixpoint allWhiteSpace (s : string) : bool :=
  match s with
  | EmptyString => true
  | String c s' => isWhiteSpace c && allWhiteSpace s'
  end.

(* ================================================================= *)
(** ** Results page: the exports and the copy buttons *)

(** A cell of the sheet handed to [aoa_to_sheet]. *)
Inductive Cell :=
| CellText (s : string)
| CellNumber (n : Z).

(** [worksheetData] of [downloadShortlistExcel]: the header row, then one
    row per shortlisted record. *)
Definition worksheetData (processedResumes : list CandidateResult.t)
  : list (list Cell) :=
  [ CellText "Candidate Name"; CellText "Email"; CellText "Score (%)";
    CellText "Experience"; CellText "Skills"; CellText "Summary";
    CellText "File Name" ]
  :: map (fun resume =>
            [ CellText (CandidateResult.candidate resume);
              CellText (CandidateResult.email resume);
              CellNumber (CandidateResult.score resume);
              CellText (CandidateResult.experience resume);
              CellText (JS.join ", " (CandidateResult.skills resume));
              CellText (CandidateResult.summary resume);
              CellText (CandidateResult.fileName resume) ])
         (shortlistedCandidates processedResumes).

(** [colWidths] of [downloadShortlistExcel], the [wch] of each column. *)
Definition colWidths : list Z := [20; 25; 10; 15; 30; 50; 25]%Z.

(** The line feed of the template literals. *)
Definition newline : string := String (ascii_of_nat 10) EmptyString.

(** [s.repeat(n)] *)
Fixpoint repeatString (s : string) (n : nat) : string :=
  match n with
  | O => EmptyString
  | S n' => (s ++ repeatString s n')%string
  end.

(** The callback of [rejectionEmails.map] in [downloadRejectionEmails]. *)
Definition emailBlock (email : RejectionEmail.t) : string :=
  ("To: " ++ RejectionEmail.email email ++ newline
   ++ "Subject: " ++ RejectionEmail.subject email ++ newline ++ newline
   ++ RejectionEmail.content email ++ newline ++ newline
   ++ repeatString "=" 50 ++ newline)%string.

(** [content] of [downloadRejectionEmails], the text of the exported
    file. *)
Definition rejectionEmailsFile (rejectionEmails : list RejectionEmail.t) : string :=
  JS.join newline (map emailBlock rejectionEmails).

(** The local state of the results page that the copy buttons use, and the
    clipboard. *)
Module Results.
Record t := mk {
  copiedStates : list (string * bool);
  clipboard : option string;
  console : list string
}.

Definition initial : t := mk [] None [].

(** [o[key]]: [None] is [undefined]. *)
Fixpoint get (key : string) (o : list (string * bool)) : option bool :=
  match o with
  | [] => None
  | (k, v) :: o' => if String.eqb k key then Some v else get key o'
  end.

(** [{ ...prev, [key]: v }]: an existing key keeps its place and takes the
    new value, a new key goes last. *)
Fixpoint set (key : string) (v : bool) (o : list (string * bool))
  : list (string * bool) :=
  match o with
  | [] => [(key, v)]
  | (k, w) :: o' =>
      if String.eqb k key then (k, v) :: o' else (k, w) :: set key v o'
  end.

(** The truth of [copiedStates[key]]. *)
Definition copied (key : string) (st : t) : bool :=
  match get key (copiedStates st) with
  | Some b => b
  | None => false
  end.
End Results.

(** [copyToClipboard(text, id)] up to the point where the timer is armed;
    [written] tells whether [navigator.clipboard.writeText] resolved. *)
Definition copyToClipboard (written : bool) (text id : string) (st : Results.t)
  : Results.t :=
  if written then
    Results.mk (Results.set id true (Results.copiedStates st))
               (Some text) (Results.console st)
  else
    Results.mk (Results.copiedStates st) (Results.clipboard st)
               (Results.console st ++ ["Failed to copy text: "]).

(** The callback of the [setTimeout] armed by [copyToClipboard(text, id)],
    run two seconds later. *)
Definition copyTimeout (id : string) (st : Results.t) : Results.t :=
  Results.mk (Results.set id false (Results.copiedStates st))
             (Results.clipboard st) (Results.console st).

(** The keys of the three families of copy buttons. *)
Definition emailKey (resume : CandidateResult.t) : string :=
  ("email-" ++ CandidateResult.id resume)%string.

Definition rejectionEmailKey (email : RejectionEmail.t) : string :=
  ("rejection-email-" ++ RejectionEmail.candidateId email)%string.

Definition contentKey (email : RejectionEmail.t) : string :=
  ("content-" ++ RejectionEmail.candidateId email)%string.

(** The label of a copy button of a candidate's address. *)
Definition copyLabel (key : string) (st : Results.t) : string :=
  if Results.copied key st then "Copied!" else "Copy Email".

(** Every draw of the source lies in the interval from 0 (included) to 1
    (excluded), as the draws of [Math.random] do. *)
Definition unitDraws (g : RandomSource) : Prop := forall n, 0 <= g n /\ g n < 1.

(* ================================================================= *)
(** ** Authentication ([services/api.ts], [context/AuthContext.tsx],
       [components/Header.tsx]) *)

Module User.
Record t := mk {
  id : string;
  email : string;
  firstName : string;
  lastName : string;
  company : option string;
  role : option string;
  createdAt : string
}.
End User.

Module AuthResponse.
Record t := mk {
  user : User.t;
  token : string;
  refreshToken : string
}.
End AuthResponse.

Module LoginRequest.
Record t := mk {
  email : string;
  password : string
}.
End LoginRequest.

Module RegisterRequest.
Record t := mk {
  email : string;
  password : string;
  firstName : string;
  lastName : string;
  company : option string
}.
End RegisterRequest.

(** [api.post(url, data)] and [api.get(url)] with the default headers of
    the instance; the fields of a JSON body are listed by name. *)
Definition jsonRequest (method url : string) (body : list (string * FormValue))
  : Request.t :=
  Request.mk method url [acceptHeader; ("Content-Type", "application/json")] body.

(** The value of the first header of that name, if any. *)
Fixpoint lookupHeader (name : string) (hs : list (string * string))
  : option string :=
  match hs with
  | [] => None
  | (k, v) :: hs' => if String.eqb k name then Some v else lookupHeader name hs'
  end.

Definition headerOf (name : string) (r : Request.t) : option string :=
  lookupHeader name (Request.headers r).

(** The two [Cookies.set] of [login], [register] and [refreshToken]. *)
Definition storeTokens (data : AuthResponse.t) (b : Browser.t) : Browser.t :=
  Browser.mk
    (Cookies.set "refresh_token" (AuthResponse.refreshToken data) 30
       (Cookies.set "auth_token" (AuthResponse.token data) 7 (Browser.cookies b)))
    (Browser.href b).

Module authAPI.

Definition loginRequest (credentials : LoginRequest.t) : Request.t :=
  jsonRequest "POST" "/auth/login"
    [ ("email", FormText (LoginRequest.email credentials));
      ("password", FormText (LoginRequest.password credentials)) ].

(** [authAPI.login] *)
Definition login (server : Request.t -> Reply AuthResponse.t)
    (credentials : LoginRequest.t) (b : Browser.t)
  : (AxiosError.t + AuthResponse.t) * Browser.t :=
  match apiCall server (loginRequest credentials) b with
  | (inr data, b') => (inr data, storeTokens data b')
  | (inl error, b') => (inl error, b')
  end.

Definition registerRequest (userData : RegisterRequest.t) : Request.t :=
  jsonRequest "POST" "/auth/register"
    ([ ("email", FormText (RegisterRequest.email userData));
       ("password", FormText (RegisterRequest.password userData));
       ("firstName", FormText (RegisterRequest.firstName userData));
       ("lastName", FormText (RegisterRequest.lastName userData)) ]
     ++ match RegisterRequest.company userData with
        | Some c => [("company", FormText c)]
        | None => []
        end).

(** [authAPI.register] *)
Definition register (server : Request.t -> Reply AuthResponse.t)
    (userData : RegisterRequest.t) (b : Browser.t)
  : (AxiosError.t + AuthResponse.t) * Browser.t :=
  match apiCall server (registerRequest userData) b with
  | (inr data, b') => (inr data, storeTokens data b')
  | (inl error, b') => (inl error, b')
  end.

(** [authAPI.logout]: the cookies are removed in the [finally] block. *)
Definition logout (server : Request.t -> Reply unit) (b : Browser.t)
  : (AxiosError.t + unit) * Browser.t :=
  let (result, b') := apiCall server (jsonRequest "POST" "/auth/logout" []) b in
  (result,
   Browser.mk
     (Cookies.remove "refresh_token"
        (Cookies.remove "auth_token" (Browser.cookies b')))
     (Browser.href b')).

(** [authAPI.getCurrentUser] *)
Definition getCurrentUser (server : Request.t -> Reply User.t) (b : Browser.t)
  : (AxiosError.t + User.t) * Browser.t :=
  apiCall server (jsonRequest "GET" "/auth/me" []) b.

(** [authAPI.refreshToken] *)
Definition refreshToken (server : Request.t -> Reply AuthResponse.t) (b : Browser.t)
  : (AxiosError.t + AuthResponse.t) * Browser.t :=
  match Cookies.get "refresh_token" (Browser.cookies b) with
  | Some tk =>
      if String.eqb tk "" then
        (inl (AxiosError.mk None "No refresh token available"), b)
      else
        match apiCall server
                (jsonRequest "POST" "/auth/refresh" [("refreshToken", FormText tk)])
                b with
        | (inr data, b') => (inr data, storeTokens data b')
        | (inl error, b') => (inl error, b')
        end
  | None => (inl (AxiosError.mk None "No refresh token available"), b)
  end.

End authAPI.

(** The state of the [AuthProvider], with the browser it acts on, the route
    of the router and the console. *)
Module App.
Record t := mk {
  browser : Browser.t;
  user : option User.t;
  loading : bool;
  route : option string;
  console : list string
}.

(** [isLoggedIn: !!user] *)
Definition isLoggedIn (a : t) : bool :=
  match user a with Some _ => true | None => false end.
End App.

Module AuthContext.

(** The provider before [initAuth] has run: no user, [loading] set. *)
Definition initial (b : Browser.t) : App.t := App.mk b None true None [].

(** [initAuth], the effect run when the provider mounts. *)
Definition initAuth (server : Request.t -> Reply User.t) (a : App.t) : App.t :=
  if isAuthenticated (App.browser a) then
    match authAPI.getCurrentUser server (App.browser a) with
    | (inr userData, b') =>
        App.mk b' (Some userData) false (App.route a) (App.console a)
    | (inl error, b') =>
        App.mk b' (App.user a) false (App.route a)
               (App.console a ++ ["Failed to get current user:"])
    end
  else App.mk (App.browser a) (App.user a) false (App.route a) (App.console a).

(** [login]: the error of a rejected call is thrown on to the caller. *)
Definition login (server : Request.t -> Reply AuthResponse.t)
    (credentials : LoginRequest.t) (a : App.t) : option AxiosError.t * App.t :=
  match authAPI.login server credentials (App.browser a) with
  | (inr response, b') =>
      (None, App.mk b' (Some (AuthResponse.user response)) false
                    (App.route a) (App.console a))
  | (inl error, b') =>
      (Some error, App.mk b' (App.user a) false (App.route a) (App.console a))
  end.

(** [register] *)
Definition register (server : Request.t -> Reply AuthResponse.t)
    (userData : RegisterRequest.t) (a : App.t) : option AxiosError.t * App.t :=
  match authAPI.register server userData (App.browser a) with
  | (inr response, b') =>
      (None, App.mk b' (Some (AuthResponse.user response)) false
                    (App.route a) (App.console a))
  | (inl error, b') =>
      (Some error, App.mk b' (App.user a) false (App.route a) (App.console a))
  end.

(** [logout]: [setUser(null)] runs only when [authAPI.logout] returns. *)
Definition logout (server : Request.t -> Reply unit) (a : App.t)
  : option AxiosError.t * App.t :=
  match authAPI.logout server (App.browser a) with
  | (inr _, b') => (None, App.mk b' None false (App.route a) (App.console a))
  | (inl error, b') =>
      (Some error, App.mk b' (App.user a) false (App.route a) (App.console a))
  end.

End AuthContext.

(** [handleLogout] of the header: [navigate('/signin')] follows a
    [logout] that returned. *)
Definition handleLogout (server : Request.t -> Reply unit) (a : App.t)
  : option AxiosError.t * App.t :=
  match AuthContext.logout server a with
  | (None, a') =>
      (None, App.mk (App.browser a') (App.user a') (App.loading a')
                    (Some "/signin") (App.console a'))
  | (Some error, a') => (Some error, a')
  end.

(** The number of occurrences of a character in a string. *)
Fixpoint countChar (c : ascii) (s : string) : nat :=
  match s with
  | EmptyString => 0
  | String a s' => (if Ascii.eqb a c then 1 else 0) + countChar c s'
  end.

(** The summary sentence of a rejected mock record. *)
Definition rejectedSummary : string :=
  "Good candidate but missing key requirements. Limited experience in core technologies mentioned in job description.".

(* ================================================================= *)
(** ** Sample inputs for the authentication layer *)

Definition sampleUser : User.t :=
  User.mk "u-1" "ada@example.com" "Ada" "Lovelace" (Some "Analytical Engines")
          None "2024-01-15T10:30:00Z".

Definition sampleAuthResponse : AuthResponse.t :=
  AuthResponse.mk sampleUser "jwt-access-token" "jwt-refresh-token".

Definition sampleCredentials : LoginRequest.t :=
  LoginRequest.mk "ada@example.com" "securepassword123".

Definition sampleRegistration : RegisterRequest.t :=
  RegisterRequest.mk "ada@example.com" "securepassword123" "Ada" "Lovelace"
                     (Some "Analytical Engines").

(** A browser without cookies. *)
Definition freshBrowser : Browser.t := Browser.mk [] None.

(** A server that accepts every login and registration. *)
Definition acceptingServer : Request.t -> Reply AuthResponse.t :=
  fun _ => Resolved sampleAuthResponse.

(** A server that answers every login with status 401. *)
Definition refusingServer : Request.t -> Reply AuthResponse.t :=
  fun _ => Rejected (Some 401%Z)
             (AxiosError.mk (Some (ApiError.mk "Invalid credentials" "UNAUTHORIZED"))
                            "Request failed with status code 401").

Definition sampleRequestData : ProcessResumeRequest.t :=
  ProcessResumeRequest.mk (ResumeContext.jobDescription sampleContext)
                          (ResumeContext.uploadedFiles sampleContext).

(* ================================================================= *)
(** * Properties *)

(** ** Generic facts about [mapIndex] *)

Section MapIndex.
Context {A B : Type} (f : A -> nat -> Rand B).

Lemma mapIndexFrom_cons (x : A) (xs : list A) (i : nat) (g : RandomSource) :
  fst (mapIndexFrom f i (x :: xs) g)
  = fst (f x i g) :: fst (mapIndexFrom f (S i) xs (snd (f x i g))).
Proof.
  simpl. unfold bind, ret.
  destruct (f x i g) as [y g1]. simpl.
  destruct (mapIndexFrom f (S i) xs g1) as [ys g2]. reflexivity.
Qed.

(** A property every callback result has is had by every element. *)
Lemma mapIndexFrom_Forall (P : B -> Prop) :
  (forall x i g, P (fst (f x i g))) ->
  forall l i g, Forall P (fst (mapIndexFrom f i l g)).
Proof.
  intros HP l. induction l as [|x xs IH]; intros i g.
  - constructor.
  - rewrite mapIndexFrom_cons. constructor; [apply HP | apply IH].
Qed.

(** A component of the callback result that is a function of the index
    alone is that function along [i, i+1, ...]. *)
Lemma mapIndexFrom_map {C : Type} (h : B -> C) (k : nat -> C) :
  (forall x i g, h (fst (f x i g)) = k i) ->
  forall l i g,
    map h (fst (mapIndexFrom f i l g)) = map k (seq i (List.length l)).
Proof.
  intros Hk l. induction l as [|x xs IH]; intros i g.
  - reflexivity.
  - rewrite mapIndexFrom_cons. simpl. rewrite Hk, IH. reflexivity.
Qed.

Lemma mapIndexFrom_length (l : list A) (i : nat) (g : RandomSource) :
  List.length (fst (mapIndexFrom f i l g)) = List.length l.
Proof.
  revert i g. induction l as [|x xs IH]; intros i g.
  - reflexivity.
  - rewrite mapIndexFrom_cons. simpl. now rewrite IH.
Qed.

End MapIndex.

(** ** The mock record of one file *)

Lemma mockResume_score (file : File.t) (index : nat) (g : RandomSource) :
  CandidateResult.score (fst (mockResume file index g))
  = (JS.floor (g 0%nat * inject_Z 40) + 60)%Z.
Proof.
  unfold mockResume, randomBelow, random, bind, ret.
  destruct (_ >=? 80)%Z; reflexivity.
Qed.

Lemma mockResume_status (file : File.t) (index : nat) (g : RandomSource) :
  CandidateResult.status (fst (mockResume file index g))
  = if (CandidateResult.score (fst (mockResume file index g)) >=? 80)%Z
    then shortlisted else rejected.
Proof.
  rewrite mockResume_score.
  unfold mockResume, randomBelow, random, bind, ret.
  destruct (_ >=? 80)%Z; reflexivity.
Qed.

Lemma mockResume_id (file : File.t) (index : nat) (g : RandomSource) :
  CandidateResult.id (fst (mockResume file index g))
  = ("resume_" ++ JS.ofNat index)%string.
Proof.
  unfold mockResume, randomBelow, random, bind, ret.
  destruct (_ >=? 80)%Z; reflexivity.
Qed.

Lemma mockResume_classified (file : File.t) (index : nat) (g : RandomSource) :
  let c := fst (mockResume file index g) in
  CandidateResult.status c = shortlisted <-> (80 <= CandidateResult.score c)%Z.
Proof.
  cbv zeta. rewrite mockResume_status.
  destruct (_ >=? 80)%Z eqn:E.
  - split; [intros _; lia | reflexivity].
  - split; [discriminate | lia].
Qed.

Lemma simulateMockProcessing_resumes (now : Z) (p : Page.t) (g : RandomSource) :
  ResumeContext.processedResumes (Page.context (fst (simulateMockProcessing now p g)))
  = fst (mockResumes (ResumeContext.uploadedFiles (Page.context p)) g).
Proof.
  unfold simulateMockProcessing, bind, ret.
  destruct (mockResumes _ g) as [rs g']. reflexivity.
Qed.

Lemma simulateMockProcessing_emails (now : Z) (p : Page.t) (g : RandomSource) :
  ResumeContext.rejectionEmails (Page.context (fst (simulateMockProcessing now p g)))
  = mockRejectionEmails (ResumeContext.jobDescription (Page.context p))
      (fst (mockResumes (ResumeContext.uploadedFiles (Page.context p)) g)).
Proof.
  unfold simulateMockProcessing, bind, ret.
  destruct (mockResumes _ g) as [rs g']. reflexivity.
Qed.

(** C1. Every candidate record of a mock screening run is shortlisted
    exactly when its score is at least 80, the threshold in force on every
    run; a score equal to 80 is shortlisted. *)
Theorem C1_status_iff_score_ge_threshold
    (now : Z) (p : Page.t) (g : RandomSource) (c : CandidateResult.t) :
  In c (ResumeContext.processedResumes
          (Page.context (fst (simulateMockProcessing now p g)))) ->
  (CandidateResult.status c = shortlisted <-> (80 <= CandidateResult.score c)%Z)
  /\ (CandidateResult.score c = 80%Z -> CandidateResult.status c = shortlisted).
Proof.
  rewrite simulateMockProcessing_resumes. unfold mockResumes, mapIndex.
  intros Hin.
  assert (H : CandidateResult.status c = shortlisted
              <-> (80 <= CandidateResult.score c)%Z).
  { pose proof (mapIndexFrom_Forall mockResume
                  (fun c => CandidateResult.status c = shortlisted
                            <-> (80 <= CandidateResult.score c)%Z)
                  mockResume_classified
                  (ResumeContext.uploadedFiles (Page.context p)) 0%nat g) as HF.
    rewrite Forall_forall in HF. exact (HF c Hin). }
  split; [exact H | intros E; apply H; lia].
Qed.

(** ** Record identifiers *)

Lemma ofNat_inj (n m : nat) : JS.ofNat n = JS.ofNat m -> n = m.
Proof.
  unfold JS.ofNat. intros H.
  apply Unsigned.to_uint_inj.
  apply (f_equal NilEmpty.uint_of_string) in H.
  rewrite !NilEmpty.usu in H. now injection H.
Qed.

Lemma mockResumes_ids (files : list File.t) (g : RandomSource) :
  map CandidateResult.id (fst (mockResumes files g))
  = map (fun i => ("resume_" ++ JS.ofNat i)%string) (seq 0 (List.length files)).
Proof.
  unfold mockResumes, mapIndex.
  apply mapIndexFrom_map. intros x i g'. apply mockResume_id.
Qed.

(** The identifiers of the records of one run are pairwise different. *)
Lemma mockResumes_ids_NoDup (files : list File.t) (g : RandomSource) :
  NoDup (map CandidateResult.id (fst (mockResumes files g))).
Proof.
  rewrite mockResumes_ids.
  apply NoDup_map_NoDup_ForallPairs; [| apply seq_NoDup].
  intros i j _ _ H. simpl in H. injection H as H. now apply ofNat_inj.
Qed.

Lemma filter_hasId_absent (i : string) (l : list CandidateResult.t) :
  ~ In i (map CandidateResult.id l) -> filter (hasId i) l = [].
Proof.
  induction l as [|x xs IH]; simpl; intros Hn; [reflexivity |].
  unfold hasId at 1. destruct (String.eqb_spec (CandidateResult.id x) i) as [E|E].
  - exfalso. apply Hn. now left.
  - apply IH. intros Hin. apply Hn. now right.
Qed.

Lemma filter_hasId_unique (l : list CandidateResult.t) (c : CandidateResult.t) :
  NoDup (map CandidateResult.id l) -> In c l ->
  filter (hasId (CandidateResult.id c)) l = [c].
Proof.
  induction l as [|x xs IH]; simpl; intros Hnd Hin; [contradiction |].
  inversion Hnd as [|? ? Hx Hxs]; subst.
  destruct Hin as [->|Hin].
  - unfold hasId at 1. rewrite String.eqb_refl.
    now rewrite filter_hasId_absent.
  - unfold hasId at 1.
    destruct (String.eqb_spec (CandidateResult.id x) (CandidateResult.id c)) as [E|E].
    + exfalso. apply Hx. rewrite E. now apply in_map.
    + now apply IH.
Qed.

Lemma filter_comm {A} (p q : A -> bool) (l : list A) :
  filter p (filter q l) = filter q (filter p l).
Proof.
  induction l as [|x xs IH]; simpl; [reflexivity |].
  destruct (p x) eqn:Ep, (q x) eqn:Eq; simpl; rewrite ?Ep, ?Eq, IH; reflexivity.
Qed.

(** The drafts addressed to one record of a list without duplicate
    identifiers: the record's own draft when it is rejected, none when it is
    not. *)
Lemma drafts_of_candidate (jd : string) (l : list CandidateResult.t)
    (c : CandidateResult.t) :
  NoDup (map CandidateResult.id l) -> In c l ->
  filter (draftFor (CandidateResult.id c)) (mockRejectionEmails jd l)
  = if isRejected c then [mockRejectionEmail jd c] else [].
Proof.
  intros Hnd Hin. unfold mockRejectionEmails.
  rewrite filter_map_swap.
  change (fun a => draftFor (CandidateResult.id c) (mockRejectionEmail jd a))
    with (hasId (CandidateResult.id c)).
  rewrite filter_comm, (filter_hasId_unique l c Hnd Hin). simpl.
  destruct (isRejected c); reflexivity.
Qed.

(** C2. In the result of a mock screening run a draft is addressed to a
    candidate exactly when the candidate is rejected: a rejected candidate
    has exactly one draft carrying its id, a shortlisted candidate has
    none. *)
Theorem C2_draft_iff_rejected
    (now : Z) (p : Page.t) (g : RandomSource) (c : CandidateResult.t) :
  let st := Page.context (fst (simulateMockProcessing now p g)) in
  let drafts := filter (draftFor (CandidateResult.id c))
                       (ResumeContext.rejectionEmails st) in
  In c (ResumeContext.processedResumes st) ->
  ((exists d, In d (ResumeContext.rejectionEmails st)
              /\ RejectionEmail.candidateId d = CandidateResult.id c)
   <-> CandidateResult.status c = rejected)
  /\ (CandidateResult.status c = rejected -> List.length drafts = 1%nat)
  /\ (CandidateResult.status c = shortlisted -> List.length drafts = 0%nat).
Proof.
  cbv zeta.
  rewrite simulateMockProcessing_resumes, simulateMockProcessing_emails.
  set (jd := ResumeContext.jobDescription (Page.context p)).
  set (files := ResumeContext.uploadedFiles (Page.context p)).
  intros Hin.
  pose proof (drafts_of_candidate jd _ c (mockResumes_ids_NoDup files g) Hin) as HD.
  repeat split.
  - intros [d [Hd Hid]].
    assert (Hf : In d (filter (draftFor (CandidateResult.id c))
                         (mockRejectionEmails jd (fst (mockResumes files g))))).
    { apply filter_In. split; [exact Hd |].
      unfold draftFor. rewrite Hid. apply String.eqb_refl. }
    rewrite HD in Hf. unfold isRejected in Hf.
    destruct (CandidateResult.status c); [destruct Hf | reflexivity].
  - intros Hs. exists (mockRejectionEmail jd c). split; [| reflexivity].
    assert (Hf : In (mockRejectionEmail jd c)
                   (filter (draftFor (CandidateResult.id c))
                      (mockRejectionEmails jd (fst (mockResumes files g))))).
    { rewrite HD. unfold isRejected. rewrite Hs. now left. }
    apply filter_In in Hf. apply Hf.
  - intros Hs. rewrite HD. unfold isRejected. rewrite Hs. reflexivity.
  - intros Hs. rewrite HD. unfold isRejected. rewrite Hs. reflexivity.
Qed.

(** ** Results page statistics *)

Lemma Status_eqb_eq (a b : Status) : Status_eqb a b = true <-> a = b.
Proof. destruct a, b; simpl; split; congruence. Qed.

Lemma filter_status_split (l : list CandidateResult.t) :
  List.length l
  = (List.length (filter isShortlisted l) + List.length (filter isRejected l))%nat.
Proof.
  induction l as [|x xs IH]; simpl; [reflexivity |].
  unfold isShortlisted at 1, isRejected at 1.
  destruct (CandidateResult.status x); simpl; lia.
Qed.

(** C3. The number of processed records is the number of shortlisted plus
    the number of rejected records, the two lists being the records whose
    status is [shortlisted] and those whose status is [rejected]; a record
    of the run is in exactly one of them. *)
Theorem C3_total_is_shortlisted_plus_rejected
    (processedResumes : list CandidateResult.t) (c : CandidateResult.t) :
  In c processedResumes ->
  List.length processedResumes
  = (List.length (shortlistedCandidates processedResumes)
     + List.length (rejectedCandidates processedResumes))%nat
  /\ (In c (shortlistedCandidates processedResumes)
      <-> CandidateResult.status c = shortlisted)
  /\ (In c (rejectedCandidates processedResumes)
      <-> CandidateResult.status c = rejected)
  /\ (In c (shortlistedCandidates processedResumes)
      <-> ~ In c (rejectedCandidates processedResumes)).
Proof.
  intros Hin. unfold shortlistedCandidates, rejectedCandidates.
  split; [apply filter_status_split |].
  rewrite !filter_In. unfold isShortlisted, isRejected.
  rewrite !Status_eqb_eq.
  split; [tauto |]. split; [tauto |].
  destruct (CandidateResult.status c); split.
  - intros _ [_ Hr]. discriminate.
  - intros _. now split.
  - intros [_ Hs]. discriminate.
  - intros Hn. exfalso. apply Hn. now split.
Qed.

Lemma length_pos_Qeq_bool {A} (x : A) (xs : list A) :
  Qeq_bool (inject_Z (Z.of_nat (List.length (x :: xs)))) 0 = false.
Proof.
  destruct (Qeq_bool _ 0) eqn:E; [| reflexivity].
  apply Qeq_bool_iff in E. unfold Qeq in E. simpl in E. lia.
Qed.

(** On a non-empty list the displayed average is the exact mean rounded to
    the nearest integer, halves upwards. *)
Lemma avgScore_nonempty (l : list CandidateResult.t) :
  l <> [] ->
  avgScore l = Finite (inject_Z (Qfloor (exactMean l + (1 # 2)))).
Proof.
  destruct l as [|x xs]; [congruence | intros _].
  unfold avgScore, jsDiv. rewrite length_pos_Qeq_bool. reflexivity.
Qed.

(** C4 (as amended). On a non-empty list of records the displayed average
    is an integer within one half of the exact mean of the scores, the mean
    being taken over the records of the list only. *)
Theorem C4_average_within_half_of_mean (processedResumes : list CandidateResult.t) :
  processedResumes <> [] ->
  exists z : Z,
    avgScore processedResumes = Finite (inject_Z z)
    /\ exactMean processedResumes - (1 # 2) < inject_Z z
    /\ inject_Z z <= exactMean processedResumes + (1 # 2).
Proof.
  intros Hne. exists (Qfloor (exactMean processedResumes + (1 # 2))).
  split; [now apply avgScore_nonempty |].
  set (m := exactMean processedResumes).
  pose proof (Qfloor_le (m + (1 # 2))) as Hle.
  pose proof (Qlt_floor (m + (1 # 2))) as Hlt.
  split; [| exact Hle].
  rewrite inject_Z_plus in Hlt.
  apply Qplus_lt_l with (z := 1).
  eapply Qle_lt_trans; [| exact Hlt].
  ring_simplify. apply Qle_refl.
Qed.

(** C10. The average of the empty list of records is the division of zero
    by zero: the page shows [NaN], not zero; the empty list is the only one
    for which this happens. *)
Theorem C10_average_of_empty_list_is_NaN :
  sumScores [] = 0%Z
  /\ jsDiv (inject_Z (sumScores [])) (inject_Z (Z.of_nat (@List.length CandidateResult.t []))) = NaN
  /\ avgScore [] = NaN
  /\ avgScore [] <> Finite 0
  /\ forall l, avgScore l = NaN <-> l = [].
Proof.
  repeat split; try reflexivity; try discriminate.
  - intros H. destruct l as [|x xs]; [reflexivity |].
    rewrite avgScore_nonempty in H; discriminate.
  - intros ->. reflexivity.
Qed.

(** ** Upload filter *)

(** [endsWith] holds exactly of the strings that are some string followed
    by the suffix. *)
Lemma endsWith_spec (s suffix : string) :
  JS.endsWith s suffix = true <-> exists pre, s = (pre ++ suffix)%string.
Proof.
  induction s as [|c s IH]; cbn [JS.endsWith].
  - rewrite orb_false_r. split.
    + intros E. apply String.eqb_eq in E. now exists ""%string.
    + intros [pre E]. apply String.eqb_eq.
      destruct pre; simpl in E; [exact E | discriminate].
  - rewrite orb_true_iff, IH, String.eqb_eq. split.
    + intros [E | [pre E]].
      * now exists ""%string.
      * exists (String c pre). simpl. now rewrite E.
    + intros [pre E]. destruct pre as [|c' pre]; simpl in E.
      * now left.
      * right. exists pre. now injection E.
Qed.

Lemma acceptsFile_spec (file : File.t) :
  acceptsFile file = true <->
  File.type file = "application/pdf"
  \/ (exists pre, JS.toLowerCase (File.name file) = (pre ++ ".doc")%string)
  \/ (exists pre, JS.toLowerCase (File.name file) = (pre ++ ".docx")%string).
Proof.
  unfold acceptsFile.
  rewrite !orb_true_iff, String.eqb_eq, !endsWith_spec. tauto.
Qed.

(** C6 (as amended). [handleFileUpload] keeps, after the files already
    uploaded, exactly the new files whose declared type is
    [application/pdf] or whose lower-cased name ends in [.doc] or [.docx];
    whether a file is kept does not depend on its content. *)
Theorem C6_upload_filter_by_declared_type_and_name
    (files : list File.t) (st : ResumeContext.t) (f : File.t) :
  (In f (ResumeContext.uploadedFiles (handleFileUpload (Some files) st))
   <-> In f (ResumeContext.uploadedFiles st)
       \/ (In f files
           /\ (File.type f = "application/pdf"
               \/ (exists pre, JS.toLowerCase (File.name f) = (pre ++ ".doc")%string)
               \/ (exists pre, JS.toLowerCase (File.name f) = (pre ++ ".docx")%string))))
  /\ (forall content',
        acceptsFile (File.mk (File.name f) (File.type f) (File.size f) content')
        = acceptsFile f)
  /\ handleFileUpload None st = st.
Proof.
  split; [| split; reflexivity].
  simpl. rewrite in_app_iff, filter_In, acceptsFile_spec. tauto.
Qed.

(** C6, counterexample. Two files with the same PDF bytes: the one declared
    as [application/pdf] is kept, the one without extension and type is
    dropped; a text file named [notes.doc] is kept. *)
Lemma C6_counterexample :
  File.content pdfWithoutExtension = File.content samplePdf
  /\ acceptsFile samplePdf = true
  /\ acceptsFile pdfWithoutExtension = false
  /\ acceptsFile textNamedDoc = true
  /\ ResumeContext.uploadedFiles
       (handleFileUpload (Some [pdfWithoutExtension; textNamedDoc])
                         ResumeContext.initial)
     = [textNamedDoc].
Proof. repeat split. Qed.

(** C4, counterexample. Two records with the scores 60 and 61: the page
    shows 61, the mean is 60.5. *)
Lemma C4_counterexample :
  let l := fst (mockResumes [samplePdf; sampleDocx] sixtyThenSixtyOne) in
  l <> []
  /\ map CandidateResult.score l = [60%Z; 61%Z]
  /\ avgScore l = Finite (inject_Z 61)
  /\ exactMean l == 121 # 2
  /\ ~ (Qabs (inject_Z 61 - exactMean l) < 1 # 1000000).
Proof.
  cbv zeta. repeat split; try (vm_compute; congruence).
Qed.

(** ** The position label and the drafts *)

Lemma split_nonempty (sep : ascii) (s : string) : JS.split sep s <> [].
Proof.
  destruct s as [|c s]; simpl; [discriminate |].
  destruct (Ascii.eqb c sep); [discriminate |].
  destruct (JS.split sep s); discriminate.
Qed.

Lemma join_cons (sep w : string) (ws : list string) :
  ws <> [] -> JS.join sep (w :: ws) = (w ++ sep ++ JS.join sep ws)%string.
Proof. destruct ws; [congruence | reflexivity]. Qed.

(** Joining the pieces of a split with the separator gives the string
    back. *)
Lemma join_split (sep : ascii) (s : string) :
  JS.join (String sep "") (JS.split sep s) = s.
Proof.
  induction s as [|c s IH]; [reflexivity |].
  pose proof (split_nonempty sep s) as Hne.
  cbn [JS.split]. destruct (Ascii.eqb_spec c sep) as [->|Hc].
  - rewrite join_cons by exact Hne. rewrite IH. reflexivity.
  - destruct (JS.split sep s) as [|w ws]; [congruence |].
    rewrite <- IH. destruct ws as [|w' ws]; reflexivity.
Qed.

(** No piece of a split contains the separator. *)
Lemma split_pieces (sep : ascii) (s : string) :
  Forall (fun w => includesChar sep w = false) (JS.split sep s).
Proof.
  induction s as [|c s IH]; cbn [JS.split].
  - repeat constructor.
  - destruct (Ascii.eqb c sep) eqn:E.
    + constructor; [reflexivity | exact IH].
    + destruct (JS.split sep s) as [|w ws].
      * repeat constructor. simpl. now rewrite E.
      * inversion IH; subst. constructor; [| assumption].
        simpl. rewrite E. assumption.
Qed.

Lemma append_empty_r (s : string) : (s ++ "")%string = s.
Proof. induction s as [|c s IH]; simpl; [reflexivity | now rewrite IH]. Qed.

Lemma append_assoc (a b c : string) :
  ((a ++ b) ++ c)%string = (a ++ (b ++ c))%string.
Proof. induction a as [|x a IH]; simpl; [reflexivity | now rewrite IH]. Qed.

(** The join of the first pieces of a list is a leading part of the join
    of the list. *)
Lemma join_firstn_prefix (sep : string) (n : nat) (l : list string) :
  exists rest, JS.join sep l = (JS.join sep (firstn n l) ++ rest)%string.
Proof.
  revert n. induction l as [|w ws IH]; intros n.
  - exists ""%string. now rewrite firstn_nil.
  - destruct n as [|n]; [now exists (JS.join sep (w :: ws)) |].
    cbn [firstn]. destruct ws as [|w' ws].
    + exists ""%string. rewrite firstn_nil. simpl.
      now rewrite append_empty_r.
    + rewrite join_cons by discriminate.
      destruct n as [|n].
      * exists (sep ++ JS.join sep (w' :: ws))%string. reflexivity.
      * destruct (IH (S n)) as [rest Hrest]. exists rest.
        rewrite (join_cons sep w (firstn (S n) (w' :: ws)))
          by (cbn [firstn]; discriminate).
        rewrite Hrest, !append_assoc. reflexivity.
Qed.

Lemma Forall_firstn {A} (P : A -> Prop) (n : nat) (l : list A) :
  Forall P l -> Forall P (firstn n l).
Proof.
  intros H. rewrite <- (firstn_skipn n l) in H.
  apply Forall_app in H. apply H.
Qed.

(** The position label: at most three space-free words of the job
    description joined by single spaces, and a leading part of it. *)
Lemma positionLabel_spec (jobDescription : string) :
  exists words,
    positionLabel jobDescription = JS.join " " words
    /\ (List.length words <= 3)%nat
    /\ Forall (fun w => includesChar " " w = false) words
    /\ exists rest, jobDescription = (positionLabel jobDescription ++ rest)%string.
Proof.
  exists (firstn 3 (JS.split " " jobDescription)).
  split; [reflexivity |]. split; [apply firstn_le_length |].
  split; [apply Forall_firstn, split_pieces |].
  unfold positionLabel.
  destruct (join_firstn_prefix " " 3 (JS.split " " jobDescription)) as [rest H].
  exists rest. rewrite <- H. symmetry. apply join_split.
Qed.

(** A draft of the list is the draft of one of the rejected records. *)
Lemma mockRejectionEmails_In (jd : string) (l : list CandidateResult.t)
    (d : RejectionEmail.t) :
  In d (mockRejectionEmails jd l) <->
  exists c, In c l /\ CandidateResult.status c = rejected
            /\ d = mockRejectionEmail jd c.
Proof.
  unfold mockRejectionEmails. rewrite in_map_iff. split.
  - intros [c [E Hc]]. apply filter_In in Hc. destruct Hc as [Hc Hr].
    exists c. unfold isRejected in Hr. rewrite Status_eqb_eq in Hr. auto.
  - intros [c [Hc [Hr E]]]. exists c. split; [auto |].
    apply filter_In. split; [exact Hc |].
    unfold isRejected. now rewrite Status_eqb_eq.
Qed.

(** C7. The subject of every draft of a mock run is the fixed prefix
    followed by a position label taken from the job description (at most
    three of its leading space-separated words) and the word Position. *)
Theorem C7_subject_is_prefix_then_label
    (now : Z) (p : Page.t) (g : RandomSource) (d : RejectionEmail.t) :
  In d (ResumeContext.rejectionEmails
          (Page.context (fst (simulateMockProcessing now p g)))) ->
  let jd := ResumeContext.jobDescription (Page.context p) in
  RejectionEmail.subject d
  = ("Thank you for your application - " ++ positionLabel jd ++ " Position")%string
  /\ exists words,
       positionLabel jd = JS.join " " words
       /\ (List.length words <= 3)%nat
       /\ Forall (fun w => includesChar " " w = false) words
       /\ exists rest, jd = (positionLabel jd ++ rest)%string.
Proof.
  rewrite simulateMockProcessing_emails, mockRejectionEmails_In.
  intros [c [_ [_ ->]]]. cbv zeta. split; [reflexivity |].
  apply positionLabel_spec.
Qed.

(** C9. The draft is a function of the candidate's name and e-mail address
    and of the job description: two drafts from any two mock runs over the
    same job description that carry the same name and address have the same
    subject and the same content, whatever the files, the random draws and
    the clock of the two runs; and every rejected record of a run has its
    draft. *)
Theorem C9_drafter_deterministic_and_total
    (now1 now2 : Z) (p1 p2 : Page.t) (g1 g2 : RandomSource)
    (d1 d2 : RejectionEmail.t) :
  let st1 := Page.context (fst (simulateMockProcessing now1 p1 g1)) in
  let st2 := Page.context (fst (simulateMockProcessing now2 p2 g2)) in
  ResumeContext.jobDescription (Page.context p1)
  = ResumeContext.jobDescription (Page.context p2) ->
  In d1 (ResumeContext.rejectionEmails st1) ->
  In d2 (ResumeContext.rejectionEmails st2) ->
  RejectionEmail.candidate d1 = RejectionEmail.candidate d2 ->
  RejectionEmail.email d1 = RejectionEmail.email d2 ->
  (RejectionEmail.subject d1 = RejectionEmail.subject d2
   /\ RejectionEmail.content d1 = RejectionEmail.content d2)
  /\ (forall c, In c (ResumeContext.processedResumes st1) ->
                CandidateResult.status c = rejected ->
                In (mockRejectionEmail
                      (ResumeContext.jobDescription (Page.context p1)) c)
                   (ResumeContext.rejectionEmails st1)).
Proof.
  cbv zeta.
  rewrite !simulateMockProcessing_emails, !simulateMockProcessing_resumes.
  rewrite !mockRejectionEmails_In.
  intros Hjd [c1 [_ [_ ->]]] [c2 [_ [_ ->]]] Hname _.
  simpl in Hname. split.
  - unfold mockRejectionEmail; simpl. rewrite Hjd, Hname. split; reflexivity.
  - intros c Hc Hr. apply mockRejectionEmails_In. exists c. auto.
Qed.

(** ** The backend call and its fallback *)

Lemma simulateMockProcessing_page (now : Z) (p : Page.t) (g : RandomSource) :
  fst (simulateMockProcessing now p g)
  = let st := Page.context p in
    let resumes := fst (mockResumes (ResumeContext.uploadedFiles st) g) in
    Page.mk
      (ResumeContext.mk
         (ResumeContext.jobDescription st) (ResumeContext.uploadedFiles st)
         resumes
         (mockRejectionEmails (ResumeContext.jobDescription st) resumes)
         (ResumeContext.processing st)
         (Some ("mock_job_" ++ JS.ofZ now)%string))
      (Some "/results") (Page.console p).
Proof.
  unfold simulateMockProcessing, bind, ret.
  destruct (mockResumes _ g) as [rs g']. reflexivity.
Qed.

(** Reading a cookie after a removal. *)
Lemma Cookies_get_remove_same (name : string) (j : Cookies.jar) :
  Cookies.get name (Cookies.remove name j) = None.
Proof.
  induction j as [|[k c] j IH]; cbn [Cookies.remove Cookies.get]; [reflexivity |].
  destruct (String.eqb k name) eqn:E; [exact IH |].
  destruct c as [v d]. cbn [Cookies.get]. now rewrite E.
Qed.

Lemma Cookies_get_remove_other (name other : string) (j : Cookies.jar) :
  name <> other ->
  Cookies.get other (Cookies.remove name j) = Cookies.get other j.
Proof.
  intros Hne. induction j as [|[k [v d]] j IH];
    cbn [Cookies.remove Cookies.get]; [reflexivity |].
  destruct (String.eqb_spec k name) as [->|Hk].
  - destruct (String.eqb_spec name other); [contradiction | exact IH].
  - cbn [Cookies.get]. destruct (String.eqb k other); [reflexivity | exact IH].
Qed.

(** The case analysis the response interceptor makes on the status. *)
Lemma match_401 {A} (status : option Z) (x y : A) :
  match status with Some 401%Z => x | _ => y end
  = match status with
    | Some z => if (z =? 401)%Z then x else y
    | None => y
    end.
Proof.
  destruct status as [[|q|q]|]; try reflexivity.
  do 9 (destruct q as [q|q|]; try reflexivity).
Qed.

(** C5 (as amended). The processing page surfaces no batch-level error.  A
    call that returns stores the candidates and drafts of the response
    unchanged and goes to the results page, the browser state untouched.  A
    call that is rejected writes the two console lines of the fallback.
    When the rejection is an answer with status 401 the response
    interceptor has removed both token cookies and reassigned the address
    of the browser to the sign-in page; on every other rejection the
    browser state is untouched and the page ends on the results page with
    mock records and drafts made from the list of uploaded files, one
    record per file, and a mock job id. *)
Theorem C5_failed_call_is_replaced_by_mock_data
    (backend : Backend) (now : Z) (st : ResumeContext.t) (b : Browser.t)
    (g : RandomSource) :
  let p := fst (fst (processResumesWithAPI backend now st b g)) in
  let b' := snd (fst (processResumesWithAPI backend now st b g)) in
  let out := Page.context p in
  match backend (processResumes_request (getAuthToken b)
                   (ProcessResumeRequest.mk (ResumeContext.jobDescription st)
                                            (ResumeContext.uploadedFiles st))) with
  | Resolved response =>
      Page.route p = Some "/results"
      /\ ResumeContext.processing out = false
      /\ ResumeContext.processedResumes out = ProcessResumeResponse.candidates response
      /\ ResumeContext.rejectionEmails out
         = ProcessResumeResponse.rejectionEmails response
      /\ ResumeContext.currentJobId out = Some (ProcessResumeResponse.jobId response)
      /\ Page.console p = []
      /\ b' = b
  | Rejected status error =>
      Page.console p = [ "Failed to process resumes:";
                         "Falling back to mock data for demo..." ]
      /\ match status with
         | Some 401%Z =>
             getAuthToken b' = None
             /\ Cookies.get "refresh_token" (Browser.cookies b') = None
             /\ Browser.href b' = Some "/signin"
         | _ =>
             b' = b
             /\ Page.route p = Some "/results"
             /\ ResumeContext.processing out = false
             /\ ResumeContext.processedResumes out
                = fst (mockResumes (ResumeContext.uploadedFiles st) g)
             /\ ResumeContext.rejectionEmails out
                = mockRejectionEmails (ResumeContext.jobDescription st)
                    (fst (mockResumes (ResumeContext.uploadedFiles st) g))
             /\ ResumeContext.currentJobId out
                = Some ("mock_job_" ++ JS.ofZ now)%string
             /\ List.length (ResumeContext.processedResumes out)
                = List.length (ResumeContext.uploadedFiles st)
         end
  end.
Proof.
  cbv zeta.
  unfold processResumesWithAPI, processResumes, apiCall, processResumes_request,
    getAuthToken, bind, ret.
  cbn [ResumeContext.setProcessing ResumeContext.jobDescription
       ResumeContext.uploadedFiles].
  destruct (backend _) as [response | status error].
  - simpl. repeat split.
  - pose proof (simulateMockProcessing_page now
        (Page.mk (ResumeContext.setProcessing true st) None
           [ "Failed to process resumes:";
             "Falling back to mock data for demo..." ]) g) as H.
    unfold ResumeContext.setProcessing in H.
    destruct (simulateMockProcessing _ _ g) as [p g'].
    simpl in H. subst p. cbn [fst snd Page.console]. split; [reflexivity |].
    rewrite (match_401 status), (match_401 status).
    destruct status as [z|].
    + destruct (z =? 401)%Z.
      * cbn [Browser.cookies Browser.href].
        split; [| split; [| reflexivity]].
        -- rewrite Cookies_get_remove_other by discriminate.
           apply Cookies_get_remove_same.
        -- apply Cookies_get_remove_same.
      * simpl. repeat split. unfold mockResumes, mapIndex. apply mapIndexFrom_length.
    + simpl. repeat split. unfold mockResumes, mapIndex. apply mapIndexFrom_length.
Qed.

(** C5, counterexample. The backend fails with a persistence error (an
    answer with status 500); the page still ends on the results page, with
    a mock job id, two mock records named after the built-in candidate list
    and two drafts, and the browser state is as before. *)
Lemma C5_counterexample :
  let out := fst (processResumesWithAPI failingBackend 0 sampleContext
                    signedInBrowser zeros) in
  let p := fst out in
  Page.route p = Some "/results"
  /\ ResumeContext.currentJobId (Page.context p) = Some "mock_job_0"
  /\ map CandidateResult.candidate (ResumeContext.processedResumes (Page.context p))
     = [ "Sarah Johnson"; "Michael Chen" ]
  /\ map CandidateResult.score (ResumeContext.processedResumes (Page.context p))
     = [ 60%Z; 60%Z ]
  /\ List.length (ResumeContext.rejectionEmails (Page.context p)) = 2%nat
  /\ snd out = signedInBrowser.
Proof. vm_compute. repeat split. Qed.

(** The same run against a backend that answers 401: both token cookies
    are gone and the address of the browser is the sign-in page. *)
Example unauthorized_call_leaves_for_signin :
  let b' := snd (fst (processResumesWithAPI unauthorizedBackend 0 sampleContext
                        signedInBrowser zeros)) in
  Browser.cookies b' = [] /\ Browser.href b' = Some "/signin".
Proof. vm_compute. split; reflexivity. Qed.

(** ** The request *)

(** C8. The body of the request of [processResumes] is the job description
    followed by the files, under the keys [jobDescription] and [resumes],
    and nothing else; no entry is keyed [comparisonScore]; and the context
    value has neither a [comparisonScore] nor a [setComparisonScore]
    property. *)
Theorem C8_request_is_job_description_and_files
    (token : option string) (st : ResumeContext.t) :
  let data := ProcessResumeRequest.mk (ResumeContext.jobDescription st)
                                      (ResumeContext.uploadedFiles st) in
  let r := processResumes_request token data in
  Request.body r
  = ("jobDescription", FormText (ResumeContext.jobDescription st))
    :: map (fun file => ("resumes", FormFile file)) (ResumeContext.uploadedFiles st)
  /\ map fst (Request.body r)
     = "jobDescription" :: repeat "resumes" (List.length (ResumeContext.uploadedFiles st))
  /\ ~ In "comparisonScore" (map fst (Request.body r))
  /\ ResumeContext.get "comparisonScore" (ResumeContext.value st) = None
  /\ ResumeContext.get "setComparisonScore" (ResumeContext.value st) = None.
Proof.
  cbv zeta.
  assert (Hb : Request.body
                 (processResumes_request token
                    (ProcessResumeRequest.mk (ResumeContext.jobDescription st)
                                             (ResumeContext.uploadedFiles st)))
               = ("jobDescription", FormText (ResumeContext.jobDescription st))
                 :: map (fun file => ("resumes", FormFile file))
                        (ResumeContext.uploadedFiles st)).
  { unfold processResumes_request, authInterceptor.
    destruct token as [tk|]; [destruct (String.eqb tk "") |]; reflexivity. }
  assert (Hk : forall fs : list File.t,
             map fst (map (fun file => ("resumes", FormFile file)) fs)
             = repeat "resumes" (List.length fs)).
  { induction fs as [|f fs IH]; simpl; [reflexivity | now rewrite IH]. }
  rewrite Hb. cbn [map fst]. rewrite Hk.
  repeat split.
  intros [E | Hin]; [discriminate |].
  apply repeat_spec in Hin. discriminate.
Qed.

(** ** Instances *)

(** C1 at the record whose score is exactly 80. *)
Lemma C1_witness :
  (CandidateResult.status boundaryRecord = shortlisted
   <-> (80 <= CandidateResult.score boundaryRecord)%Z)
  /\ (CandidateResult.score boundaryRecord = 80%Z
      -> CandidateResult.status boundaryRecord = shortlisted).
Proof.
  apply (C1_status_iff_score_ge_threshold 0 samplePage halves boundaryRecord).
  vm_compute. left. reflexivity.
Defined.

(** C2 at a rejected record of a run in which every score is 60. *)
Lemma C2_witness :
  List.length
    (filter (draftFor (CandidateResult.id rejectedRecord))
       (ResumeContext.rejectionEmails
          (Page.context (fst (simulateMockProcessing 0 samplePage zeros)))))
  = 1%nat.
Proof.
  apply (C2_draft_iff_rejected 0 samplePage zeros rejectedRecord).
  - vm_compute. left. reflexivity.
  - reflexivity.
Defined.

(** C3 at a list of one shortlisted and one rejected record. *)
Lemma C3_witness :
  List.length [boundaryRecord; rejectedRecord]
  = (List.length (shortlistedCandidates [boundaryRecord; rejectedRecord])
     + List.length (rejectedCandidates [boundaryRecord; rejectedRecord]))%nat.
Proof.
  apply (C3_total_is_shortlisted_plus_rejected
           [boundaryRecord; rejectedRecord] boundaryRecord).
  simpl. left. reflexivity.
Defined.

(** C4 (as amended) at the scores 80 and 60. *)
Lemma C4_witness :
  exists z : Z,
    avgScore [boundaryRecord; rejectedRecord] = Finite (inject_Z z)
    /\ exactMean [boundaryRecord; rejectedRecord] - (1 # 2) < inject_Z z
    /\ inject_Z z <= exactMean [boundaryRecord; rejectedRecord] + (1 # 2).
Proof.
  apply (C4_average_within_half_of_mean [boundaryRecord; rejectedRecord]).
  discriminate.
Defined.

(** C7 at the draft of a run over the sample job description. *)
Lemma C7_witness :
  RejectionEmail.subject sampleDraft
  = "Thank you for your application - Senior React Developer Position".
Proof.
  apply (C7_subject_is_prefix_then_label 0 samplePage zeros sampleDraft).
  vm_compute. left. reflexivity.
Defined.

(** C9 at two drafts of different runs, with different record ids, for
    the same name and address. *)
Lemma C9_witness :
  RejectionEmail.candidateId sampleDraft <> RejectionEmail.candidateId eleventhDraft
  /\ RejectionEmail.subject sampleDraft = RejectionEmail.subject eleventhDraft
  /\ RejectionEmail.content sampleDraft = RejectionEmail.content eleventhDraft.
Proof.
  split; [discriminate |].
  apply (C9_drafter_deterministic_and_total
           0 5 samplePage elevenFilesPage sixtyThenSixtyOne zeros
           sampleDraft eleventhDraft).
  - reflexivity.
  - vm_compute. left. reflexivity.
  - vm_compute. do 10 right. left. reflexivity.
  - reflexivity.
  - reflexivity.
Defined.

(* ================================================================= *)
(** * Further properties of the code *)

(** ** The mock run: ranges, file names and draws *)

Section MapIndexMore.
Context {A B : Type} (f : A -> nat -> Rand B).

Lemma mapIndexFrom_rest (x : A) (xs : list A) (i : nat) (g : RandomSource) :
  snd (mapIndexFrom f i (x :: xs) g)
  = snd (mapIndexFrom f (S i) xs (snd (f x i g))).
Proof.
  simpl. unfold bind, ret.
  destruct (f x i g) as [y g1]. simpl.
  destruct (mapIndexFrom f (S i) xs g1) as [ys g2]. reflexivity.
Qed.

(** A property of the results that holds whenever the source satisfies an
    invariant the callback keeps. *)
Lemma mapIndexFrom_Forall_inv (I : RandomSource -> Prop) (P : B -> Prop) :
  (forall x i g, I g -> P (fst (f x i g)) /\ I (snd (f x i g))) ->
  forall l i g, I g -> Forall P (fst (mapIndexFrom f i l g)).
Proof.
  intros H l. induction l as [|x xs IH]; intros i g Hg.
  - constructor.
  - rewrite mapIndexFrom_cons. destruct (H x i g Hg) as [HP HI].
    constructor; [exact HP | now apply IH].
Qed.

(** A component of the callback result that is a function of the element
    alone is the map of that function. *)
Lemma mapIndexFrom_map_elem {C : Type} (h : B -> C) (k : A -> C) :
  (forall x i g, h (fst (f x i g)) = k x) ->
  forall l i g, map h (fst (mapIndexFrom f i l g)) = map k l.
Proof.
  intros Hk l. induction l as [|x xs IH]; intros i g.
  - reflexivity.
  - rewrite mapIndexFrom_cons. simpl. now rewrite Hk, IH.
Qed.

End MapIndexMore.

Lemma randomBelow_range (r : Q) (n : Z) :
  0 <= r -> r < 1 -> (0 < n)%Z ->
  (0 <= JS.floor (r * inject_Z n) < n)%Z.
Proof.
  intros H0 H1 Hn. unfold JS.floor.
  assert (Hq : 0 < inject_Z n) by (unfold Qlt; simpl; lia).
  split.
  - rewrite <- (Qfloor_Z 0). apply Qfloor_resp_le.
    apply Qmult_le_0_compat; [exact H0 | now apply Qlt_le_weak].
  - rewrite Zlt_Qlt.
    eapply Qle_lt_trans; [apply Qfloor_le |].
    rewrite <- (Qmult_1_l (inject_Z n)) at 2.
    apply Qmult_lt_r; assumption.
Qed.

Lemma mockResume_fileName (file : File.t) (index : nat) (g : RandomSource) :
  CandidateResult.fileName (fst (mockResume file index g)) = File.name file.
Proof.
  unfold mockResume, randomBelow, random, bind, ret.
  destruct (_ >=? 80)%Z; reflexivity.
Qed.

Lemma mockResume_skills (file : File.t) (index : nat) (g : RandomSource) :
  CandidateResult.skills (fst (mockResume file index g))
  = JS.slice0
      (JS.floor
         (g (if (CandidateResult.score (fst (mockResume file index g)) >=? 80)%Z
             then 3%nat else 2%nat) * inject_Z 4) + 3)
      allSkills.
Proof.
  rewrite mockResume_score.
  unfold mockResume, randomBelow, random, bind, ret.
  destruct (_ >=? 80)%Z; reflexivity.
Qed.

(** The draws left after one record: four are used for a shortlisted
    record, three for a rejected one. *)
Lemma mockResume_rest (file : File.t) (index : nat) (g : RandomSource) (n : nat) :
  snd (mockResume file index g) n
  = g ((if isShortlisted (fst (mockResume file index g)) then 4 else 3) + n)%nat.
Proof.
  unfold isShortlisted. rewrite mockResume_status, mockResume_score.
  unfold mockResume, randomBelow, random, bind, ret.
  destruct (_ >=? 80)%Z; reflexivity.
Qed.

Lemma mockResume_rest_unit (file : File.t) (index : nat) (g : RandomSource) :
  unitDraws g -> unitDraws (snd (mockResume file index g)).
Proof. intros H n. rewrite mockResume_rest. apply H. Qed.

Lemma slice0_allSkills (k : Z) :
  (0 <= k < 4)%Z ->
  JS.slice0 (k + 3) allSkills = firstn (Z.to_nat (k + 3)) allSkills
  /\ List.length (JS.slice0 (k + 3) allSkills) = Z.to_nat (k + 3).
Proof.
  intros Hk.
  assert (E : k = 0%Z \/ k = 1%Z \/ k = 2%Z \/ k = 3%Z) by lia.
  destruct E as [-> | [-> | [-> | ->]]]; split; reflexivity.
Qed.

(** X1. With draws in the unit interval, every record of a mock run has a
    score from 60 to 99 and carries the first three to six of the built-in
    skills. *)
Theorem X1_mock_scores_and_skills_in_range
    (files : list File.t) (g : RandomSource) (c : CandidateResult.t) :
  unitDraws g ->
  In c (fst (mockResumes files g)) ->
  (60 <= CandidateResult.score c <= 99)%Z
  /\ (3 <= List.length (CandidateResult.skills c) <= 6)%nat
  /\ CandidateResult.skills c
     = firstn (List.length (CandidateResult.skills c)) allSkills.
Proof.
  intros Hg Hin.
  pose proof (mapIndexFrom_Forall_inv mockResume unitDraws
    (fun c => (60 <= CandidateResult.score c <= 99)%Z
              /\ (3 <= List.length (CandidateResult.skills c) <= 6)%nat
              /\ CandidateResult.skills c
                 = firstn (List.length (CandidateResult.skills c)) allSkills)) as HF.
  assert (Hstep : forall x i g0, unitDraws g0 ->
    ((60 <= CandidateResult.score (fst (mockResume x i g0)) <= 99)%Z
     /\ (3 <= List.length (CandidateResult.skills (fst (mockResume x i g0))) <= 6)%nat
     /\ CandidateResult.skills (fst (mockResume x i g0))
        = firstn (List.length (CandidateResult.skills (fst (mockResume x i g0))))
                 allSkills)
    /\ unitDraws (snd (mockResume x i g0))).
  { intros x i g0 Hg0. split; [| now apply mockResume_rest_unit].
    rewrite mockResume_skills, mockResume_score.
    set (j := if (_ >=? 80)%Z then 3%nat else 2%nat).
    destruct (Hg0 0%nat) as [A0 A1]. destruct (Hg0 j) as [B0 B1].
    pose proof (randomBelow_range (g0 0%nat) 40 A0 A1 eq_refl) as Hs.
    pose proof (randomBelow_range (g0 j) 4 B0 B1 eq_refl) as Hk.
    destruct (slice0_allSkills _ Hk) as [E L].
    split; [lia |]. rewrite L. split; [lia | exact E]. }
  specialize (HF Hstep files 0%nat g Hg).
  rewrite Forall_forall in HF. exact (HF c Hin).
Qed.

Lemma mockResumes_length (files : list File.t) (g : RandomSource) :
  List.length (fst (mockResumes files g)) = List.length files.
Proof. unfold mockResumes, mapIndex. apply mapIndexFrom_length. Qed.

(** X2. A mock run makes one record per uploaded file, in upload order,
    each carrying the name of its file. *)
Theorem X2_mock_records_follow_the_uploads (files : list File.t) (g : RandomSource) :
  map CandidateResult.fileName (fst (mockResumes files g)) = map File.name files
  /\ List.length (fst (mockResumes files g)) = List.length files.
Proof.
  unfold mockResumes, mapIndex. split.
  - apply mapIndexFrom_map_elem. intros x i g'. apply mockResume_fileName.
  - apply mapIndexFrom_length.
Qed.

Lemma mockResumes_rest_from (files : list File.t) (i : nat) (g : RandomSource) (n : nat) :
  snd (mapIndexFrom mockResume i files g) n
  = g (4 * List.length (filter isShortlisted (fst (mapIndexFrom mockResume i files g)))
       + 3 * List.length (filter isRejected (fst (mapIndexFrom mockResume i files g)))
       + n)%nat.
Proof.
  revert i g n. induction files as [|x xs IH]; intros i g n.
  - reflexivity.
  - rewrite mapIndexFrom_rest, mapIndexFrom_cons, IH, mockResume_rest.
    cbn [filter]. unfold isShortlisted at 1 3, isRejected at 2.
    destruct (CandidateResult.status (fst (mockResume x i g)));
      cbn [Status_eqb List.length]; f_equal; lia.
Qed.

(** X3. A mock run uses four draws of the random source for each record it
    shortlists and three for each record it rejects, and no others: the
    draws left after the run are the source from that position on. *)
Theorem X3_mock_run_draw_count (files : list File.t) (g : RandomSource) (n : nat) :
  let resumes := fst (mockResumes files g) in
  snd (mockResumes files g) n
  = g (4 * List.length (shortlistedCandidates resumes)
       + 3 * List.length (rejectedCandidates resumes) + n)%nat.
Proof. apply mockResumes_rest_from. Qed.

(** ** The mock run on the results page *)

Lemma map_filter_rejected_drafts (jd : string) (l : list CandidateResult.t) :
  map RejectionEmail.candidateId (mockRejectionEmails jd l)
  = map CandidateResult.id (rejectedCandidates l)
  /\ map RejectionEmail.candidate (mockRejectionEmails jd l)
     = map CandidateResult.candidate (rejectedCandidates l)
  /\ map RejectionEmail.email (mockRejectionEmails jd l)
     = map CandidateResult.email (rejectedCandidates l).
Proof.
  unfold mockRejectionEmails, rejectedCandidates.
  rewrite !map_map. repeat split.
Qed.

(** X4. After a mock run the drafts are those of the rejected records the
    results page lists, in the same order and with the same id, name and
    address; the number of shortlisted records plus the number of drafts is
    the number of uploaded files. *)
Theorem X4_mock_drafts_match_rejected_tab
    (now : Z) (p : Page.t) (g : RandomSource) :
  let st := Page.context (fst (simulateMockProcessing now p g)) in
  let rejectedTab := rejectedCandidates (ResumeContext.processedResumes st) in
  map RejectionEmail.candidateId (ResumeContext.rejectionEmails st)
  = map CandidateResult.id rejectedTab
  /\ map RejectionEmail.candidate (ResumeContext.rejectionEmails st)
     = map CandidateResult.candidate rejectedTab
  /\ map RejectionEmail.email (ResumeContext.rejectionEmails st)
     = map CandidateResult.email rejectedTab
  /\ (List.length (shortlistedCandidates (ResumeContext.processedResumes st))
      + List.length (ResumeContext.rejectionEmails st))%nat
     = List.length (ResumeContext.uploadedFiles (Page.context p)).
Proof.
  cbv zeta. rewrite simulateMockProcessing_resumes, simulateMockProcessing_emails.
  set (jd := ResumeContext.jobDescription (Page.context p)).
  set (files := ResumeContext.uploadedFiles (Page.context p)).
  destruct (map_filter_rejected_drafts jd (fst (mockResumes files g))) as [A [B C]].
  repeat split; try assumption.
  unfold mockRejectionEmails. rewrite length_map.
  unfold shortlistedCandidates. rewrite <- filter_status_split.
  apply mockResumes_length.
Qed.

Lemma fold_left_sum_acc (l : list CandidateResult.t) (a : Z) :
  fold_left (fun sum r => (sum + CandidateResult.score r)%Z) l a
  = (a + sumScores l)%Z.
Proof.
  unfold sumScores. revert a. induction l as [|x xs IH]; intros a; simpl.
  - lia.
  - rewrite IH, (IH (CandidateResult.score x)). lia.
Qed.

Lemma sumScores_cons (x : CandidateResult.t) (xs : list CandidateResult.t) :
  sumScores (x :: xs) = (CandidateResult.score x + sumScores xs)%Z.
Proof. unfold sumScores at 1. simpl. apply fold_left_sum_acc. Qed.

Lemma sumScores_bounds (lo hi : Z) (l : list CandidateResult.t) :
  Forall (fun c => (lo <= CandidateResult.score c <= hi)%Z) l ->
  (lo * Z.of_nat (List.length l) <= sumScores l <= hi * Z.of_nat (List.length l))%Z.
Proof.
  induction 1 as [|x xs Hx _ IH].
  - cbn. lia.
  - rewrite sumScores_cons. cbn [List.length]. lia.
Qed.

(** When every score of a non-empty list lies between two integers, so
    does the displayed average. *)
Lemma avgScore_bounds (lo hi : Z) (l : list CandidateResult.t) :
  l <> [] ->
  Forall (fun c => (lo <= CandidateResult.score c <= hi)%Z) l ->
  exists z, avgScore l = Finite (inject_Z z) /\ (lo <= z <= hi)%Z.
Proof.
  intros Hne HF.
  exists (Qfloor (exactMean l + (1 # 2))).
  split; [now apply avgScore_nonempty |].
  pose proof (sumScores_bounds lo hi l HF) as [Hlo Hhi].
  set (n := Z.of_nat (List.length l)) in *.
  assert (Hn : (0 < n)%Z) by (destruct l; [congruence | subst n; cbn; lia]).
  assert (Hq : 0 < inject_Z n) by (unfold Qlt; simpl; lia).
  assert (Mlo : inject_Z lo <= exactMean l).
  { unfold exactMean. fold n. apply Qle_shift_div_l; [exact Hq |].
    rewrite <- inject_Z_mult, <- Zle_Qle. exact Hlo. }
  assert (Mhi : exactMean l <= inject_Z hi).
  { unfold exactMean. fold n. apply Qle_shift_div_r; [exact Hq |].
    rewrite <- inject_Z_mult, <- Zle_Qle. exact Hhi. }
  split.
  - rewrite <- (Qfloor_Z lo). apply Qfloor_resp_le.
    eapply Qle_trans; [exact Mlo |].
    rewrite <- (Qplus_0_r (exactMean l)) at 1.
    apply Qplus_le_r. discriminate.
  - apply Z.lt_succ_r. rewrite Zlt_Qlt.
    eapply Qle_lt_trans; [apply Qfloor_le |].
    eapply Qle_lt_trans; [apply Qplus_le_l; exact Mhi |].
    unfold Z.succ. rewrite inject_Z_plus.
    apply Qplus_lt_r. reflexivity.
Qed.

(** X5. With draws in the unit interval, the average score the results
    page shows after a mock run over at least one file is an integer from
    60 to 99. *)
Theorem X5_mock_average_in_range
    (now : Z) (p : Page.t) (g : RandomSource) :
  unitDraws g ->
  ResumeContext.uploadedFiles (Page.context p) <> [] ->
  exists z,
    avgScore (ResumeContext.processedResumes
                (Page.context (fst (simulateMockProcessing now p g))))
    = Finite (inject_Z z)
    /\ (60 <= z <= 99)%Z.
Proof.
  intros Hg Hne. rewrite simulateMockProcessing_resumes.
  set (files := ResumeContext.uploadedFiles (Page.context p)) in *.
  apply avgScore_bounds.
  - intros E. apply (f_equal (@List.length _)) in E.
    rewrite mockResumes_length in E. destruct files; [congruence | discriminate].
  - pose proof (mapIndexFrom_Forall_inv mockResume unitDraws
      (fun c => (60 <= CandidateResult.score c <= 99)%Z)) as HF.
    apply HF; [| exact Hg].
    intros x i g0 Hg0. split; [| now apply mockResume_rest_unit].
    rewrite mockResume_score. destruct (Hg0 0%nat) as [A0 A1].
    pose proof (randomBelow_range (g0 0%nat) 40 A0 A1 eq_refl). lia.
Qed.

(** ** Upload page *)

(** X6. Uploading two batches one after the other gives the same context as
    uploading them as one batch; the files already uploaded stay first and
    in place, the kept new files follow in their order (a file uploaded
    twice is listed twice), and no other part of the context changes. *)
Theorem X6_uploads_compose
    (batch1 batch2 : list File.t) (st : ResumeContext.t) :
  handleFileUpload (Some (batch1 ++ batch2)) st
  = handleFileUpload (Some batch2) (handleFileUpload (Some batch1) st)
  /\ ResumeContext.uploadedFiles (handleFileUpload (Some batch1) st)
     = ResumeContext.uploadedFiles st ++ filter acceptsFile batch1
  /\ List.length (ResumeContext.uploadedFiles (handleFileUpload (Some batch1) st))
     = (List.length (ResumeContext.uploadedFiles st)
        + List.length (filter acceptsFile batch1))%nat
  /\ ResumeContext.setUploadedFiles (ResumeContext.uploadedFiles st)
       (handleFileUpload (Some batch1) st)
     = st.
Proof.
  repeat split.
  - unfold handleFileUpload, ResumeContext.setUploadedFiles. simpl.
    now rewrite filter_app, app_assoc.
  - simpl. apply length_app.
  - destruct st. reflexivity.
Qed.

Lemma filterIndexFrom_remove_from {A} (index i : nat) (l : list A) :
  filterIndexFrom (fun _ j => negb (j =? index + i)%nat) i l
  = firstn index l ++ skipn (S index) l.
Proof.
  revert index i. induction l as [|x xs IH]; intros index i.
  - now rewrite firstn_nil, skipn_nil.
  - cbn [filterIndexFrom]. destruct index as [|index].
    + cbn [Nat.add]. rewrite Nat.eqb_refl. cbn [negb firstn skipn app].
      clear IH. revert i. induction xs as [|y ys IHy]; intros i; [reflexivity |].
      cbn [filterIndexFrom].
      replace (S i =? i)%nat with false by (symmetry; apply Nat.eqb_neq; lia).
      cbn [negb]. f_equal.
      specialize (IHy (S i)).
      assert (G : forall (l : list A) a b, (a < b)%nat ->
                 filterIndexFrom (fun _ j => negb (j =? a)%nat) b l = l).
      { clear. induction l as [|z zs IHz]; intros a b Hab; [reflexivity |].
        cbn [filterIndexFrom].
        replace (b =? a)%nat with false by (symmetry; apply Nat.eqb_neq; lia).
        cbn [negb]. f_equal. apply IHz. lia. }
      apply G. lia.
    + replace (i =? S index + i)%nat with false
        by (symmetry; apply Nat.eqb_neq; lia).
      cbn [negb firstn app]. f_equal.
      replace (S index + i)%nat with (index + S i)%nat by lia.
      apply IH.
Qed.

Lemma filterIndexFrom_remove {A} (index : nat) (l : list A) :
  filterIndexFrom (fun _ j => negb (j =? index)%nat) 0 l
  = firstn index l ++ skipn (S index) l.
Proof.
  pose proof (filterIndexFrom_remove_from index 0 l) as E.
  replace (index + 0)%nat with index in E by lia. exact E.
Qed.

(** X7. [removeFile] drops the file at the given position and keeps the
    others in order; a position past the end of the list changes
    nothing. *)
Theorem X7_removeFile_drops_one_position (index : nat) (st : ResumeContext.t) :
  let files := ResumeContext.uploadedFiles st in
  ResumeContext.uploadedFiles (removeFile index st)
  = firstn index files ++ skipn (S index) files
  /\ List.length (ResumeContext.uploadedFiles (removeFile index st))
     = (if (index <? List.length files)%nat
        then List.length files - 1 else List.length files)%nat
  /\ (forall k, removeFile (List.length files + k) st = st).
Proof.
  cbv zeta.
  assert (E : ResumeContext.uploadedFiles (removeFile index st)
              = firstn index (ResumeContext.uploadedFiles st)
                ++ skipn (S index) (ResumeContext.uploadedFiles st)).
  { unfold removeFile, ResumeContext.setUploadedFiles.
    cbn [ResumeContext.uploadedFiles]. apply filterIndexFrom_remove. }
  split; [exact E |]. split.
  - rewrite E, length_app, length_firstn, length_skipn.
    destruct (Nat.ltb_spec index (List.length (ResumeContext.uploadedFiles st))); lia.
  - intros k. unfold removeFile.
    rewrite filterIndexFrom_remove, firstn_all2, skipn_all2, app_nil_r by lia.
    destruct st. reflexivity.
Qed.

(** X8. Uploading one accepted file and then removing the last position
    gives the context back. *)
Theorem X8_upload_then_remove_last (f : File.t) (st : ResumeContext.t) :
  acceptsFile f = true ->
  removeFile (List.length (ResumeContext.uploadedFiles st))
             (handleFileUpload (Some [f]) st)
  = st.
Proof.
  intros Hf. unfold removeFile, handleFileUpload.
  cbn [filter]. rewrite Hf.
  unfold ResumeContext.setUploadedFiles.
  cbn [ResumeContext.uploadedFiles ResumeContext.jobDescription
       ResumeContext.processedResumes ResumeContext.rejectionEmails
       ResumeContext.processing ResumeContext.currentJobId].
  rewrite filterIndexFrom_remove.
  rewrite firstn_app, firstn_all, Nat.sub_diag, firstn_0, app_nil_r.
  rewrite skipn_app, skipn_all2 by lia.
  replace (S (List.length (ResumeContext.uploadedFiles st))
           - List.length (ResumeContext.uploadedFiles st))%nat with 1%nat by lia.
  simpl. rewrite app_nil_r. destruct st. reflexivity.
Qed.

Lemma trimEnd_empty (s : string) :
  trimEnd s = ""%string <-> allWhiteSpace s = true.
Proof.
  induction s as [|c s IH]; cbn [trimEnd allWhiteSpace]; [tauto |].
  destruct (trimEnd s) as [|d r] eqn:E.
  - destruct (isWhiteSpace c); simpl.
    + rewrite <- IH. tauto.
    + split; discriminate.
  - rewrite andb_true_iff. split; [discriminate |].
    intros [_ H]. apply IH in H. discriminate.
Qed.

Lemma allWhiteSpace_trimStart (s : string) :
  allWhiteSpace (trimStart s) = allWhiteSpace s.
Proof.
  induction s as [|c s IH]; [reflexivity |].
  cbn [trimStart]. destruct (isWhiteSpace c) eqn:E.
  - rewrite IH. cbn [allWhiteSpace]. now rewrite E.
  - reflexivity.
Qed.

Lemma trim_empty (s : string) : trim s = ""%string <-> allWhiteSpace s = true.
Proof. unfold trim. now rewrite trimEnd_empty, allWhiteSpace_trimStart. Qed.

(** X9. The process button is enabled exactly when the job description has
    a character that is not white space and at least one file is uploaded;
    it is disabled in a fresh context and after [resetProcess]. *)
Theorem X9_process_button_enabled (st : ResumeContext.t) :
  (processDisabled st = false
   <-> allWhiteSpace (ResumeContext.jobDescription st) = false
       /\ ResumeContext.uploadedFiles st <> [])
  /\ processDisabled ResumeContext.initial = true
  /\ processDisabled (ResumeContext.resetProcess st) = true.
Proof.
  split; [| split; reflexivity].
  unfold processDisabled. rewrite orb_false_iff.
  rewrite Nat.eqb_neq, String.eqb_neq, trim_empty, not_true_iff_false.
  destruct (ResumeContext.uploadedFiles st); simpl; split;
    intros [A B]; split; try assumption; try congruence; try lia.
Qed.

(** ** Results page: the exports *)

Lemma filter_Forall {A} (p : A -> bool) (l : list A) :
  Forall (fun x => p x = true) (filter p l).
Proof. apply Forall_forall. intros x Hx. now apply filter_In in Hx. Qed.

(** X10. The sheet of the Excel export has the header row and one row per
    shortlisted record, every row with as many cells as there are column
    widths; after a mock run every data row carries a score of at least
    80. *)
Theorem X10_shortlist_sheet_shape
    (now : Z) (p : Page.t) (g : RandomSource)
    (processedResumes : list CandidateResult.t) :
  List.length (worksheetData processedResumes)
  = S (List.length (shortlistedCandidates processedResumes))
  /\ Forall (fun row => List.length row = List.length colWidths)
            (worksheetData processedResumes)
  /\ map (fun row => nth 6 row (CellText ""))
         (tl (worksheetData processedResumes))
     = map (fun c => CellText (CandidateResult.fileName c))
           (shortlistedCandidates processedResumes)
  /\ Forall (fun row => exists score,
                nth 2 row (CellText "") = CellNumber score /\ (80 <= score)%Z)
       (tl (worksheetData
              (ResumeContext.processedResumes
                 (Page.context (fst (simulateMockProcessing now p g)))))).
Proof.
  unfold worksheetData. cbn [tl List.length].
  split; [now rewrite length_map |].
  split; [constructor; [reflexivity |]; apply Forall_map, Forall_forall;
          intros; reflexivity |].
  split; [now rewrite map_map |].
  apply Forall_map. rewrite simulateMockProcessing_resumes.
  unfold shortlistedCandidates.
  apply Forall_forall. intros c Hc. apply filter_In in Hc. destruct Hc as [Hin Hs].
  exists (CandidateResult.score c). split; [reflexivity |].
  pose proof (mapIndexFrom_Forall mockResume
                (fun c => CandidateResult.status c = shortlisted
                          <-> (80 <= CandidateResult.score c)%Z)
                mockResume_classified
                (ResumeContext.uploadedFiles (Page.context p)) 0%nat g) as HF.
  rewrite Forall_forall in HF. apply (HF c Hin).
  unfold isShortlisted in Hs. now apply Status_eqb_eq.
Qed.

Lemma join_app (sep : string) (l1 l2 : list string) :
  l1 <> [] -> l2 <> [] ->
  JS.join sep (l1 ++ l2) = (JS.join sep l1 ++ sep ++ JS.join sep l2)%string.
Proof.
  intros H1 H2. induction l1 as [|w ws IH]; [congruence |].
  destruct ws as [|w' ws].
  - cbn [app]. now rewrite join_cons.
  - change ((w :: w' :: ws) ++ l2) with (w :: ((w' :: ws) ++ l2)).
    rewrite join_cons by discriminate.
    rewrite IH by discriminate.
    rewrite (join_cons sep w (w' :: ws)) by discriminate.
    now rewrite !append_assoc.
Qed.

Lemma length_append (a b : string) :
  String.length (a ++ b) = (String.length a + String.length b)%nat.
Proof. induction a as [|c a IH]; simpl; [reflexivity | now rewrite IH]. Qed.

Lemma join_length_lower (sep w : string) (ws : list string) :
  (String.length w <= String.length (JS.join sep (w :: ws)))%nat.
Proof.
  destruct ws as [|w' ws]; [simpl; lia |].
  rewrite join_cons by discriminate. rewrite length_append. lia.
Qed.

(** X11. The exported text of the rejection e-mails is empty exactly for
    the empty list of drafts; the export of any two non-empty lists put
    together is the two exports with one line feed between them; and the
    export begins with the address line of the first draft. *)
Theorem X11_rejection_export_composes
    (emails1 emails2 : list RejectionEmail.t) (e e2 : RejectionEmail.t) :
  (rejectionEmailsFile emails1 = ""%string <-> emails1 = [])
  /\ rejectionEmailsFile ((e :: emails1) ++ (e2 :: emails2))
     = (rejectionEmailsFile (e :: emails1) ++ newline
        ++ rejectionEmailsFile (e2 :: emails2))%string
  /\ exists rest,
       rejectionEmailsFile (e :: emails1)
       = ("To: " ++ RejectionEmail.email e ++ newline ++ rest)%string.
Proof.
  unfold rejectionEmailsFile. split; [| split].
  - split; [| intros ->; reflexivity].
    destruct emails1 as [|x xs]; [reflexivity |]. intros H.
    apply (f_equal String.length) in H. cbn [map] in H.
    pose proof (join_length_lower newline (emailBlock x) (map emailBlock xs)) as L.
    rewrite H in L. unfold emailBlock in L. simpl in L. lia.
  - rewrite map_app. apply join_app; discriminate.
  - cbn [map]. destruct (map emailBlock emails1) as [|b bs].
    + eexists. unfold emailBlock. cbn [JS.join]. reflexivity.
    + eexists. rewrite join_cons by discriminate. unfold emailBlock.
      rewrite !append_assoc. reflexivity.
Qed.

(** ** Results page: the copy buttons *)

Lemma Results_get_set_same (key : string) (v : bool) (o : list (string * bool)) :
  Results.get key (Results.set key v o) = Some v.
Proof.
  induction o as [|[k w] o IH]; cbn [Results.set Results.get].
  - now rewrite String.eqb_refl.
  - destruct (String.eqb k key) eqn:E; cbn [Results.get]; rewrite E; auto.
Qed.

Lemma Results_get_set_other (key other : string) (v : bool)
    (o : list (string * bool)) :
  key <> other ->
  Results.get other (Results.set key v o) = Results.get other o.
Proof.
  intros Hne. induction o as [|[k w] o IH]; cbn [Results.set Results.get].
  - destruct (String.eqb_spec key other); [contradiction | reflexivity].
  - destruct (String.eqb_spec k key) as [->|Hk]; cbn [Results.get].
    + destruct (String.eqb_spec key other); [contradiction | reflexivity].
    + destruct (String.eqb k other); [reflexivity | exact IH].
Qed.

(** X12. A copy that succeeds puts the text on the clipboard and marks the
    button of its key as copied, and the timer that follows unmarks it; the
    mark of any other key is not changed by either step.  A copy that fails
    changes neither the marks nor the clipboard. *)
Theorem X12_copy_marks_only_its_key
    (text key other : string) (st : Results.t) :
  key <> other ->
  let st1 := copyToClipboard true text key st in
  let st2 := copyTimeout key st1 in
  Results.copied key st1 = true
  /\ copyLabel key st1 = "Copied!"
  /\ copyLabel key st2 = "Copy Email"
  /\ Results.clipboard st1 = Some text
  /\ Results.copied other st1 = Results.copied other st
  /\ Results.copied key st2 = false
  /\ Results.copied other st2 = Results.copied other st
  /\ Results.clipboard st2 = Some text
  /\ Results.copiedStates (copyToClipboard false text key st) = Results.copiedStates st
  /\ Results.clipboard (copyToClipboard false text key st) = Results.clipboard st.
Proof.
  intros Hne. cbv zeta.
  unfold copyLabel, Results.copied, copyTimeout, copyToClipboard.
  cbn [Results.copiedStates Results.clipboard].
  rewrite !Results_get_set_same.
  rewrite !(Results_get_set_other key other) by exact Hne.
  repeat split.
Qed.

(** X13. The keys of the copy buttons tell the buttons apart: two address
    buttons of the shortlist have the same key only for the same record id,
    two buttons of the rejection tab only for the same candidate id, and a
    key of one of the three families is never a key of another. *)
Theorem X13_copy_keys_are_separate
    (r r' : CandidateResult.t) (e e' : RejectionEmail.t) :
  (emailKey r = emailKey r' <-> CandidateResult.id r = CandidateResult.id r')
  /\ (rejectionEmailKey e = rejectionEmailKey e'
      <-> RejectionEmail.candidateId e = RejectionEmail.candidateId e')
  /\ (contentKey e = contentKey e'
      <-> RejectionEmail.candidateId e = RejectionEmail.candidateId e')
  /\ emailKey r <> rejectionEmailKey e
  /\ emailKey r <> contentKey e
  /\ rejectionEmailKey e <> contentKey e'.
Proof.
  unfold emailKey, rejectionEmailKey, contentKey.
  repeat split; try (intros H; simpl in H; congruence).
Qed.

(** ** Authentication *)

Lemma Cookies_get_set_same (name value : string) (d : Z) (j : Cookies.jar) :
  Cookies.get name (Cookies.set name value d j) = Some value.
Proof. unfold Cookies.set. cbn [Cookies.get]. now rewrite String.eqb_refl. Qed.

Lemma Cookies_get_set_other (name other value : string) (d : Z) (j : Cookies.jar) :
  name <> other ->
  Cookies.get other (Cookies.set name value d j) = Cookies.get other j.
Proof.
  intros Hne. unfold Cookies.set. cbn [Cookies.get].
  destruct (String.eqb_spec name other); [contradiction |].
  now apply Cookies_get_remove_other.
Qed.

Lemma token_names_differ : "refresh_token"%string <> "auth_token"%string.
Proof. discriminate. Qed.

Lemma cleared_tokens (j : Cookies.jar) :
  Cookies.get "auth_token" (Cookies.remove "refresh_token" (Cookies.remove "auth_token" j))
  = None
  /\ Cookies.get "refresh_token"
       (Cookies.remove "refresh_token" (Cookies.remove "auth_token" j))
     = None.
Proof.
  split.
  - rewrite Cookies_get_remove_other by exact token_names_differ.
    apply Cookies_get_remove_same.
  - apply Cookies_get_remove_same.
Qed.

Lemma stored_tokens (data : AuthResponse.t) (b : Browser.t) :
  Cookies.get "auth_token" (Browser.cookies (storeTokens data b))
  = Some (AuthResponse.token data)
  /\ Cookies.get "refresh_token" (Browser.cookies (storeTokens data b))
     = Some (AuthResponse.refreshToken data)
  /\ Browser.href (storeTokens data b) = Browser.href b.
Proof.
  unfold storeTokens. cbn [Browser.cookies Browser.href].
  split; [| split; [| reflexivity]].
  - rewrite Cookies_get_set_other by exact token_names_differ.
    apply Cookies_get_set_same.
  - apply Cookies_get_set_same.
Qed.

Lemma authInterceptor_headers (tk : string) (r : Request.t) :
  tk <> ""%string ->
  Request.headers (authInterceptor (Some tk) r)
  = Request.headers r ++ [("Authorization", ("Bearer " ++ tk)%string)].
Proof.
  intros Hne. unfold authInterceptor.
  destruct (String.eqb_spec tk ""); [contradiction | reflexivity].
Qed.

(** X14. After [authAPI.logout], whether the call was answered, rejected or
    never reached the server, neither token cookie is left, the user does
    not count as authenticated, and the next screening request carries no
    [Authorization] header. *)
Theorem X14_logout_always_clears_tokens
    (server : Request.t -> Reply unit) (b : Browser.t)
    (data : ProcessResumeRequest.t) :
  let b' := snd (authAPI.logout server b) in
  Cookies.get "auth_token" (Browser.cookies b') = None
  /\ Cookies.get "refresh_token" (Browser.cookies b') = None
  /\ isAuthenticated b' = false
  /\ headerOf "Authorization" (processResumes_request (getAuthToken b') data)
     = None.
Proof.
  cbv zeta. unfold authAPI.logout.
  destruct (apiCall server _ b) as [result b1].
  unfold isAuthenticated, getAuthToken. cbn [snd Browser.cookies].
  destruct (cleared_tokens (Browser.cookies b1)) as [A R].
  rewrite A, R. repeat split.
Qed.

(** X15. A login that the server answers with a non-empty token stores the
    token and the refresh token, after which the user counts as
    authenticated and the screening request carries the token as bearer
    [Authorization] header. *)
Theorem X15_login_stores_tokens
    (server : Request.t -> Reply AuthResponse.t) (credentials : LoginRequest.t)
    (b : Browser.t) (response : AuthResponse.t) (data : ProcessResumeRequest.t) :
  server (authInterceptor (getAuthToken b) (authAPI.loginRequest credentials))
  = Resolved response ->
  AuthResponse.token response <> ""%string ->
  let b' := snd (authAPI.login server credentials b) in
  fst (authAPI.login server credentials b) = inr response
  /\ getAuthToken b' = Some (AuthResponse.token response)
  /\ Cookies.get "refresh_token" (Browser.cookies b')
     = Some (AuthResponse.refreshToken response)
  /\ isAuthenticated b' = true
  /\ headerOf "Authorization" (processResumes_request (getAuthToken b') data)
     = Some ("Bearer " ++ AuthResponse.token response)%string.
Proof.
  intros Hs Htk. cbv zeta. unfold authAPI.login, apiCall.
  unfold getAuthToken in Hs. rewrite Hs. cbn [fst snd].
  unfold isAuthenticated, getAuthToken.
  destruct (stored_tokens response b) as [A [R _]]. rewrite A, R.
  repeat split.
  - unfold truthy. destruct (String.eqb_spec (AuthResponse.token response) "");
      [contradiction | reflexivity].
  - unfold headerOf, processResumes_request.
    now rewrite authInterceptor_headers.
Qed.

(** X16. A rejected login stores no token.  When the answer has status 401
    both token cookies are removed and the browser is sent to the sign-in
    page; on any other rejection the browser is left as it was.  The error
    reaches the caller in both cases. *)
Theorem X16_rejected_login
    (server : Request.t -> Reply AuthResponse.t) (credentials : LoginRequest.t)
    (b : Browser.t) (status : option Z) (error : AxiosError.t) :
  server (authInterceptor (getAuthToken b) (authAPI.loginRequest credentials))
  = Rejected status error ->
  let b' := snd (authAPI.login server credentials b) in
  fst (authAPI.login server credentials b) = inl error
  /\ match status with
     | Some 401%Z =>
         getAuthToken b' = None
         /\ Cookies.get "refresh_token" (Browser.cookies b') = None
         /\ Browser.href b' = Some "/signin"
     | _ => b' = b
     end.
Proof.
  intros Hs. cbv zeta. unfold authAPI.login, apiCall.
  unfold getAuthToken in Hs. rewrite Hs. cbn [fst snd]. split; [reflexivity |].
  destruct status as [z|]; [| reflexivity].
  destruct z as [|q|q]; try reflexivity.
  destruct (Pos.eq_dec q 401) as [->|Hq].
  - unfold getAuthToken. cbn [Browser.cookies Browser.href].
    destruct (cleared_tokens (Browser.cookies b)) as [A R]. now rewrite A, R.
  - do 9 (destruct q as [q|q|]; try reflexivity); congruence.
Qed.

(** X17. Without a usable refresh token (no cookie, or an empty one)
    [authAPI.refreshToken] fails with its own error and leaves the browser
    as it was, whatever the server would answer. *)
Theorem X17_refresh_without_token
    (server : Request.t -> Reply AuthResponse.t) (b : Browser.t) :
  truthy (Cookies.get "refresh_token" (Browser.cookies b)) = false ->
  authAPI.refreshToken server b
  = (inl (AxiosError.mk None "No refresh token available"), b).
Proof.
  unfold authAPI.refreshToken, truthy.
  destruct (Cookies.get "refresh_token" (Browser.cookies b)) as [tk|]; [| reflexivity].
  destruct (String.eqb tk ""); [reflexivity | discriminate].
Qed.

(** X18. [handleLogout] always ends with both token cookies removed and
    [loading] cleared.  When the server answers the logout call, the user
    is cleared, the router goes to the sign-in page and the address of the
    browser is not reassigned.  When the call is rejected, the error is
    thrown on, the user stays set and the router is not called; the address
    of the browser is reassigned, to the sign-in page, exactly when the
    rejection is an answer with status 401. *)
Theorem X18_handleLogout_outcomes
    (server : Request.t -> Reply unit) (a : App.t) :
  let a' := snd (handleLogout server a) in
  getAuthToken (App.browser a') = None
  /\ Cookies.get "refresh_token" (Browser.cookies (App.browser a')) = None
  /\ App.loading a' = false
  /\ match server (authInterceptor (getAuthToken (App.browser a))
                     (jsonRequest "POST" "/auth/logout" [])) with
     | Resolved _ =>
         fst (handleLogout server a) = None
         /\ App.user a' = None
         /\ App.route a' = Some "/signin"
         /\ Browser.href (App.browser a') = Browser.href (App.browser a)
     | Rejected status error =>
         fst (handleLogout server a) = Some error
         /\ App.user a' = App.user a
         /\ App.route a' = App.route a
         /\ Browser.href (App.browser a')
            = match status with
              | Some 401%Z => Some "/signin"
              | _ => Browser.href (App.browser a)
              end
     end.
Proof.
  cbv zeta.
  unfold handleLogout, AuthContext.logout, authAPI.logout, apiCall, getAuthToken.
  destruct (server _) as [[] | status error]; cbn [fst snd App.browser
    App.loading App.user App.route Browser.cookies Browser.href].
  - destruct (cleared_tokens (Browser.cookies (App.browser a))) as [A R].
    rewrite A, R. repeat split.
  - match goal with
    | |- context [Cookies.remove "refresh_token" (Cookies.remove "auth_token" ?j)] =>
        destruct (cleared_tokens j) as [A R]; rewrite A, R
    end.
    repeat split.
    rewrite !(match_401 status).
    destruct status as [z|]; [destruct (z =? 401)%Z |]; reflexivity.
Qed.

(** X19. [login] of the auth context ends with [loading] cleared on every
    path.  When the server answers, the user of the answer becomes the
    current user and the context counts as logged in; when the call is
    rejected, the error is thrown on and the current user is not
    changed. *)
Theorem X19_context_login_outcomes
    (server : Request.t -> Reply AuthResponse.t) (credentials : LoginRequest.t)
    (a : App.t) :
  let a' := snd (AuthContext.login server credentials a) in
  App.loading a' = false
  /\ App.route a' = App.route a
  /\ match server (authInterceptor (getAuthToken (App.browser a))
                     (authAPI.loginRequest credentials)) with
     | Resolved response =>
         fst (AuthContext.login server credentials a) = None
         /\ App.user a' = Some (AuthResponse.user response)
         /\ App.isLoggedIn a' = true
     | Rejected _ error =>
         fst (AuthContext.login server credentials a) = Some error
         /\ App.user a' = App.user a
     end.
Proof.
  cbv zeta. unfold AuthContext.login, authAPI.login, apiCall, getAuthToken.
  destruct (server _) as [response | status error]; repeat split.
Qed.

(** X20. [initAuth] ends with [loading] cleared on every path.  Without a
    non-empty token cookie it changes nothing else, whatever the server
    would answer; with one, the user the server answers with becomes the
    current user, and a rejected call leaves the current user as it was and
    writes a console line. *)
Theorem X20_initAuth_outcomes (server : Request.t -> Reply User.t) (a : App.t) :
  let a' := AuthContext.initAuth server a in
  App.loading a' = false
  /\ App.route a' = App.route a
  /\ if isAuthenticated (App.browser a) then
       match server (authInterceptor (getAuthToken (App.browser a))
                       (jsonRequest "GET" "/auth/me" [])) with
       | Resolved userData =>
           App.user a' = Some userData /\ App.console a' = App.console a
       | Rejected _ _ =>
           App.user a' = App.user a
           /\ App.console a' = App.console a ++ ["Failed to get current user:"]
       end
     else
       a' = App.mk (App.browser a) (App.user a) false (App.route a) (App.console a).
Proof.
  cbv zeta. unfold AuthContext.initAuth, authAPI.getCurrentUser, apiCall, getAuthToken.
  destruct (isAuthenticated (App.browser a)); [| repeat split].
  destruct (server _) as [userData | status error]; repeat split.
Qed.

(** X21. Registration sends the four required fields, and the company only
    when one is given; answered by the server, it stores both tokens and
    makes the user of the answer the current user. *)
Theorem X21_register_outcomes
    (server : Request.t -> Reply AuthResponse.t) (userData : RegisterRequest.t)
    (a : App.t) (response : AuthResponse.t) :
  server (authInterceptor (getAuthToken (App.browser a))
            (authAPI.registerRequest userData))
  = Resolved response ->
  let a' := snd (AuthContext.register server userData a) in
  map fst (Request.body (authAPI.registerRequest userData))
  = [ "email"; "password"; "firstName"; "lastName" ]
    ++ (match RegisterRequest.company userData with
        | Some _ => ["company"]
        | None => []
        end)
  /\ App.user a' = Some (AuthResponse.user response)
  /\ App.loading a' = false
  /\ getAuthToken (App.browser a') = Some (AuthResponse.token response)
  /\ Cookies.get "refresh_token" (Browser.cookies (App.browser a'))
     = Some (AuthResponse.refreshToken response).
Proof.
  intros Hs. cbv zeta.
  unfold AuthContext.register, authAPI.register, apiCall, getAuthToken in *.
  rewrite Hs. cbn [fst snd App.user App.loading App.browser].
  destruct (stored_tokens response (App.browser a)) as [A [R _]].
  rewrite A, R. repeat split.
  unfold authAPI.registerRequest, jsonRequest. cbn [Request.body].
  destruct (RegisterRequest.company userData); reflexivity.
Qed.

(** ** The position label on short job descriptions *)

Lemma split_length (sep : ascii) (s : string) :
  List.length (JS.split sep s) = S (countChar sep s).
Proof.
  induction s as [|c s IH]; [reflexivity |].
  cbn [JS.split countChar]. destruct (Ascii.eqb c sep).
  - cbn [List.length]. now rewrite IH.
  - destruct (JS.split sep s) as [|w ws]; [discriminate |].
    cbn [List.length] in *. lia.
Qed.

Lemma countChar_append (c : ascii) (a b : string) :
  countChar c (a ++ b) = (countChar c a + countChar c b)%nat.
Proof. induction a as [|x a IH]; simpl; [reflexivity | rewrite IH; lia]. Qed.

Lemma countChar_absent (c : ascii) (s : string) :
  includesChar c s = false -> countChar c s = 0%nat.
Proof.
  induction s as [|a s IH]; [reflexivity |].
  cbn [includesChar countChar]. destruct (Ascii.eqb a c); [discriminate |].
  exact IH.
Qed.

Lemma countChar_join (sep : ascii) (ws : list string) :
  Forall (fun w => includesChar sep w = false) ws ->
  countChar sep (JS.join (String sep "") ws) = (List.length ws - 1)%nat.
Proof.
  induction 1 as [|w ws Hw Hws IH]; [reflexivity |].
  destruct ws as [|w' ws].
  - cbn [JS.join List.length]. now rewrite countChar_absent.
  - rewrite join_cons by discriminate.
    rewrite !countChar_append, IH, (countChar_absent sep w Hw).
    cbn [countChar List.length]. rewrite Ascii.eqb_refl. lia.
Qed.

(** X22. The position label never has more than two spaces, and it is the
    whole job description exactly when the job description has at most two
    spaces. *)
Theorem X22_position_label_of_short_description (jobDescription : string) :
  (countChar " " (positionLabel jobDescription) <= 2)%nat
  /\ (positionLabel jobDescription = jobDescription
      <-> (countChar " " jobDescription <= 2)%nat).
Proof.
  assert (Hc : (countChar " " (positionLabel jobDescription) <= 2)%nat).
  { unfold positionLabel.
    rewrite countChar_join by (apply Forall_firstn, split_pieces).
    pose proof (firstn_le_length 3 (JS.split " " jobDescription)). lia. }
  split; [exact Hc |]. split.
  - intros E. now rewrite E in Hc.
  - intros Hle. unfold positionLabel.
    rewrite firstn_all2 by (rewrite split_length; lia).
    apply join_split.
Qed.

(** ** The summary of a mock record *)

Lemma mockResume_summary (file : File.t) (index : nat) (g : RandomSource) :
  CandidateResult.summary (fst (mockResume file index g))
  = if (CandidateResult.score (fst (mockResume file index g)) >=? 80)%Z
    then ("Excellent match with " ++ JS.ofZ (JS.floor (g 1%nat * inject_Z 3) + 5)
          ++ "+ years of relevant experience. Strong technical skills and cultural fit.")%string
    else rejectedSummary.
Proof.
  rewrite mockResume_score.
  unfold mockResume, randomBelow, random, bind, ret.
  destruct (_ >=? 80)%Z; reflexivity.
Qed.

(** X23. In a mock run the summary goes with the status: a record is
    rejected exactly when its summary is the fixed sentence about missing
    requirements, and the summary of a shortlisted record begins with the
    words Excellent match. *)
Theorem X23_mock_summary_agrees_with_status
    (files : list File.t) (g : RandomSource) (c : CandidateResult.t) :
  In c (fst (mockResumes files g)) ->
  (CandidateResult.status c = rejected
   <-> CandidateResult.summary c = rejectedSummary)
  /\ (CandidateResult.status c = shortlisted
      <-> exists rest,
            CandidateResult.summary c = ("Excellent match with " ++ rest)%string).
Proof.
  intros Hin.
  pose proof (mapIndexFrom_Forall mockResume
    (fun c => (CandidateResult.status c = rejected
               <-> CandidateResult.summary c = rejectedSummary)
              /\ (CandidateResult.status c = shortlisted
                  <-> exists rest,
                        CandidateResult.summary c
                        = ("Excellent match with " ++ rest)%string))) as HF.
  assert (Hstep : forall x i g0,
    (CandidateResult.status (fst (mockResume x i g0)) = rejected
     <-> CandidateResult.summary (fst (mockResume x i g0)) = rejectedSummary)
    /\ (CandidateResult.status (fst (mockResume x i g0)) = shortlisted
        <-> exists rest,
              CandidateResult.summary (fst (mockResume x i g0))
              = ("Excellent match with " ++ rest)%string)).
  { intros x i g0. rewrite mockResume_status, mockResume_summary.
    destruct (_ >=? 80)%Z; split; split;
      try discriminate; try reflexivity.
    - intros _. eexists. reflexivity.
    - intros [rest E]. discriminate. }
  specialize (HF Hstep files 0%nat g).
  rewrite Forall_forall in HF. exact (HF c Hin).
Qed.

(** ** Instances of the further properties *)

(** X1 at the record with score 80. *)
Lemma X1_witness :
  (60 <= CandidateResult.score boundaryRecord <= 99)%Z
  /\ (3 <= List.length (CandidateResult.skills boundaryRecord) <= 6)%nat
  /\ CandidateResult.skills boundaryRecord
     = firstn (List.length (CandidateResult.skills boundaryRecord)) allSkills.
Proof.
  apply (X1_mock_scores_and_skills_in_range [samplePdf] halves boundaryRecord).
  - intros n. unfold halves, Qle, Qlt. simpl. lia.
  - vm_compute. left. reflexivity.
Defined.

(** X5 at the sample page with every draw one half. *)
Lemma X5_witness :
  exists z,
    avgScore (ResumeContext.processedResumes
                (Page.context (fst (simulateMockProcessing 0 samplePage halves))))
    = Finite (inject_Z z)
    /\ (60 <= z <= 99)%Z.
Proof.
  apply (X5_mock_average_in_range 0 samplePage halves).
  - intros n. unfold halves, Qle, Qlt. simpl. lia.
  - discriminate.
Defined.

(** X8 at the sample context and a PDF. *)
Lemma X8_witness :
  removeFile (List.length (ResumeContext.uploadedFiles sampleContext))
             (handleFileUpload (Some [samplePdf]) sampleContext)
  = sampleContext.
Proof.
  apply (X8_upload_then_remove_last samplePdf sampleContext). reflexivity.
Defined.

(** X12 at the address buttons of two records. *)
Lemma X12_witness :
  Results.copied "email-resume_0"
    (copyToClipboard true "sarah.j@email.com" "email-resume_0" Results.initial)
  = true.
Proof.
  apply (X12_copy_marks_only_its_key "sarah.j@email.com" "email-resume_0"
           "email-resume_1" Results.initial).
  discriminate.
Defined.

(** X15 at a server that accepts the login. *)
Lemma X15_witness :
  isAuthenticated (snd (authAPI.login acceptingServer sampleCredentials freshBrowser))
  = true.
Proof.
  apply (X15_login_stores_tokens acceptingServer sampleCredentials freshBrowser
           sampleAuthResponse sampleRequestData).
  - reflexivity.
  - discriminate.
Defined.

(** X16 at a server that answers 401. *)
Lemma X16_witness :
  fst (authAPI.login refusingServer sampleCredentials
         (storeTokens sampleAuthResponse freshBrowser))
  = inl (AxiosError.mk (Some (ApiError.mk "Invalid credentials" "UNAUTHORIZED"))
                       "Request failed with status code 401").
Proof.
  apply (X16_rejected_login refusingServer sampleCredentials
           (storeTokens sampleAuthResponse freshBrowser) (Some 401%Z)).
  reflexivity.
Defined.

(** X17 at a browser without cookies. *)
Lemma X17_witness :
  authAPI.refreshToken acceptingServer freshBrowser
  = (inl (AxiosError.mk None "No refresh token available"), freshBrowser).
Proof.
  apply (X17_refresh_without_token acceptingServer freshBrowser). reflexivity.
Defined.

(** X21 at a registration with a company. *)
Lemma X21_witness :
  map fst (Request.body (authAPI.registerRequest sampleRegistration))
  = [ "email"; "password"; "firstName"; "lastName"; "company" ].
Proof.
  apply (X21_register_outcomes acceptingServer sampleRegistration
           (AuthContext.initial freshBrowser) sampleAuthResponse).
  reflexivity.
Defined.

(** X23 at a rejected record. *)
Lemma X23_witness :
  CandidateResult.status rejectedRecord = rejected
  <-> CandidateResult.summary rejectedRecord = rejectedSummary.
Proof.
  apply (X23_mock_summary_agrees_with_status [samplePdf] zeros rejectedRecord).
  vm_compute. left. reflexivity.
Defined.
